(** * Airtime request bot (aitest.py): membership-gated interaction flow

    A shallow embedding of the handlers of [aitest.py] and of the three
    MongoDB collections they write, with the properties of the gated-flow
    state machine proved (or refuted) on it.

    The handlers are [async] functions that talk to three outside parties:
    the Telegram Bot API, the MongoDB store and the process (clock, random
    generator, logger).  They are embedded in a state-and-exception monad
    over a [World]: the stored documents, the answers the outside parties
    will give, and the chronological [trace] of every call a handler made.
    A handler is run sequentially from start to end; interleaving of several
    handlers is outside the model. *)

From Stdlib Require Import String Ascii List ZArith Arith Bool Lia DecimalString.
Import ListNotations.
Local Open Scope string_scope.
Local Open Scope Z_scope.

Set Implicit Arguments.

(** ** Python values used by the handlers *)

(** Exceptions that reach the model.  [TelegramError] carries the text the
    logger prints for it. *)
Inductive exn : Type :=
| AttributeError
| IndexError
| PyMongoError
| TelegramError (msg : string).

Inductive result (A : Type) : Type :=
| Ok (a : A)
| Raise (e : exn).
Arguments Ok {A} a.
Arguments Raise {A} e.

(** [str(n)] for a Python int. *)
Definition str (n : Z) : string := NilZero.string_of_int (Z.to_int n).

(** [s.split(sep)] for a one-character separator: always at least one part. *)
Fixpoint split (sep : ascii) (s : string) : list string :=
  match s with
  | EmptyString => [EmptyString]
  | String c s' =>
      if Ascii.eqb c sep then EmptyString :: split sep s'
      else match split sep s' with
           | [] => [String c EmptyString]
           | p :: ps => String c p :: ps
           end
  end.

(** [x in xs] for strings. *)
Definition str_in (x : string) (xs : list string) : bool :=
  existsb (String.eqb x) xs.

(** [datetime.now()] at the resolution the stored format keeps. *)
Record datetime : Type := mk_datetime {
  year : nat; month : nat; day : nat;
  hour : nat; minute : nat; second : nat
}.

Definition digits (n : nat) : string := NilZero.string_of_uint (Nat.to_uint n).

Fixpoint zeros (k : nat) : string :=
  match k with O => "" | S k' => "0" ++ zeros k' end.

(** Zero padding of a number to [width] characters, as the [%Y], [%m], [%d],
    [%H], [%M] and [%S] directives do. *)
Definition zpad (width n : nat) : string :=
  zeros (width - String.length (digits n)) ++ digits n.

(** [d.strftime('%Y-%m-%d %H:%M:%S')] *)
Definition strftime (d : datetime) : string :=
  zpad 4 (year d) ++ "-" ++ zpad 2 (month d) ++ "-" ++ zpad 2 (day d) ++ " " ++
  zpad 2 (hour d) ++ ":" ++ zpad 2 (minute d) ++ ":" ++ zpad 2 (second d).

(** Chronological order of two readings: lexicographic on the fields. *)
Fixpoint lex_leb (a b : list nat) : bool :=
  match a, b with
  | x :: a', y :: b' =>
      if Nat.ltb x y then true
      else if Nat.eqb x y then lex_leb a' b' else false
  | _, _ => true
  end.

Definition fields (d : datetime) : list nat :=
  [year d; month d; day d; hour d; minute d; second d].

Definition dt_leb (a b : datetime) : bool := lex_leb (fields a) (fields b).

(** ** Telegram objects *)

Record User : Type := mk_User {
  id : Z;
  username : option string;
  first_name : string;
  last_name : option string
}.

(** A message the bot received, or one of its own that carries a button. *)
Record Message : Type := mk_Message {
  chat_id : Z;
  message_id : Z;
  from_user : User
}.

Record CallbackQuery : Type := mk_CallbackQuery {
  cq_from_user : User;
  data : string;
  cq_message : Message
}.

(** An [Update] carries the optional parts the handlers read.  The library
    fills [message] only for an incoming chat message and [callback_query]
    only for a button press; the other one is [None]. *)
Record Update : Type := mk_Update {
  message : option Message;
  callback_query : option CallbackQuery
}.

(** [update.effective_user] *)
Definition effective_user (update : Update) : option User :=
  match message update with
  | Some m => Some (from_user m)
  | None =>
      match callback_query update with
      | Some q => Some (cq_from_user q)
      | None => None
      end
  end.

(** [context.args]; [context.bot] is the Bot API side of the [World]. *)
Record Context : Type := mk_Context { args : list string }.

Inductive ButtonAction : Type :=
| url (link : string)
| callback_data (payload : string).

Record InlineKeyboardButton : Type := mk_Button {
  label : string;
  action : ButtonAction
}.

Definition InlineKeyboardMarkup : Type := list (list InlineKeyboardButton).

(** A message the bot sent, as returned by [reply_text]. *)
Record SentMessage : Type := mk_Sent { sent_chat : Z; sent_id : Z }.

(** ** Stored documents *)

Record UserDoc : Type := mk_UserDoc {
  user_id : Z;
  doc_username : option string;
  doc_first_name : string;
  doc_last_name : option string;
  balance : Z;
  requests : Z;
  join_date : string
}.

Record AirtimeRequestDoc : Type := mk_AirtimeRequestDoc {
  req_user_id : Z;
  network : string;
  phone_number : string;
  amount : Z;
  req_status : string;
  req_timestamp : string
}.

Record TransactionDoc : Type := mk_TransactionDoc {
  tx_user_id : Z;
  tx_type : string;
  tx_amount : Z;
  tx_status : string;
  tx_timestamp : string
}.

Inductive Collection : Type := users_collection | airtime_requests_collection | transactions_collection.

(** ** Effects *)

(** Every call that leaves the handler, in the order it is made. *)
Inductive Event : Type :=
| EvGetChatMember (chat : string) (user : Z)
| EvLoggerError (text : string)
| EvReplyText (chat : Z) (text : string)
              (reply_markup : option InlineKeyboardMarkup) (parse_mode : option string)
| EvEditText (chat : Z) (msg : Z) (text : string)
| EvDelete (chat : Z) (msg : Z)
| EvAnswer (text : option string) (show_alert : bool)
| EvSendMessage (chat : Z) (text : string)
| EvSleep (seconds : nat)
| EvUpdateOne (c : Collection) (key : Z)
| EvInsertOne (c : Collection)
| EvFindOne (c : Collection) (key : Z)
| EvFind (c : Collection)
| EvCountDocuments (c : Collection) (key : option Z).

(** What the outside will answer.  Nothing in a handler changes it.
    - [chat_member chat user]: the status [get_chat_member] reports, or the
      exception it raises;
    - [send_error chat]: the exception [send_message] raises for that chat,
      if any;
    - [wall k]: the reading of the wall clock after [k] calls;
    - [rand k]: the raw value behind the [k]-th random draw;
    - [write_fault k]: whether the [k]-th write to the store raises. *)
Record Env : Type := mk_Env {
  chat_member : string -> Z -> result string;
  send_error : Z -> option string;
  wall : nat -> datetime;
  rand : nat -> Z;
  write_fault : nat -> bool
}.

Record World : Type := mk_World {
  env : Env;
  users : list UserDoc;
  airtime_requests : list AirtimeRequestDoc;
  transactions : list TransactionDoc;
  tick : nat;
  draws : nat;
  writes : nat;
  next_message_id : Z;
  trace : list Event
}.

Definition with_env (e : Env) (w : World) : World :=
  mk_World e (users w) (airtime_requests w) (transactions w)
           (tick w) (draws w) (writes w) (next_message_id w) (trace w).

Definition with_users (us : list UserDoc) (w : World) : World :=
  mk_World (env w) us (airtime_requests w) (transactions w)
           (tick w) (draws w) (writes w) (next_message_id w) (trace w).

Definition with_airtime_requests (rs : list AirtimeRequestDoc) (w : World) : World :=
  mk_World (env w) (users w) rs (transactions w)
           (tick w) (draws w) (writes w) (next_message_id w) (trace w).

Definition with_transactions (ts : list TransactionDoc) (w : World) : World :=
  mk_World (env w) (users w) (airtime_requests w) ts
           (tick w) (draws w) (writes w) (next_message_id w) (trace w).

(** The monad of handlers: a result or an exception, and the world after. *)
Definition M (A : Type) : Type := World -> result A * World.

Definition ret {A} (a : A) : M A := fun w => (Ok a, w).

Definition raise {A} (e : exn) : M A := fun w => (Raise e, w).

Definition bind {A B} (m : M A) (k : A -> M B) : M B :=
  fun w =>
    match m w with
    | (Ok a, w') => k a w'
    | (Raise e, w') => (Raise e, w')
    end.

(** [try: m  except Exception as e: h e] *)
Definition try_except {A} (m : M A) (h : exn -> M A) : M A :=
  fun w =>
    match m w with
    | (Ok a, w') => (Ok a, w')
    | (Raise e, w') => h e w'
    end.

Declare Scope py_scope.
Delimit Scope py_scope with py.
Notation "x <- m ;; k" := (bind m (fun x => k))
  (at level 61, m at next level, right associativity) : py_scope.
Notation "m ;; k" := (bind m (fun _ => k))
  (at level 61, right associativity) : py_scope.
Local Open Scope py_scope.

(** One outside call: it is recorded and time moves on. *)
Definition emit (e : Event) : M unit :=
  fun w =>
    (Ok tt, mk_World (env w) (users w) (airtime_requests w) (transactions w)
                     (S (tick w)) (draws w) (writes w) (next_message_id w)
                     (trace w ++ [e])).

(** [datetime.now()] *)
Definition datetime_now : M datetime :=
  fun w => (Ok (wall (env w) (tick w)), w).

(** [random.randint(a, b)]: some integer of [a..b], both ends included. *)
Definition random_randint (a b : Z) : M Z :=
  fun w =>
    (Ok (a + rand (env w) (draws w) mod (b - a + 1)),
     mk_World (env w) (users w) (airtime_requests w) (transactions w)
              (tick w) (S (draws w)) (writes w) (next_message_id w) (trace w)).

(** [logger.error(text)] *)
Definition logger_error (text : string) : M unit := emit (EvLoggerError text).

(** [asyncio.sleep(seconds)] *)
Definition asyncio_sleep (seconds : nat) : M unit := emit (EvSleep seconds).

(** [bot.get_chat_member(chat_id, user_id).status] *)
Definition get_chat_member (chat : string) (user : Z) : M string :=
  emit (EvGetChatMember chat user) ;;
  fun w => (chat_member (env w) chat user, w).

(** [bot.send_message(chat_id, text)] *)
Definition send_message (chat : Z) (text : string) : M unit :=
  emit (EvSendMessage chat text) ;;
  fun w =>
    match send_error (env w) chat with
    | Some msg => (Raise (TelegramError msg), w)
    | None => (Ok tt, w)
    end.

(** [message.reply_text(text, reply_markup, parse_mode)], returning the new
    message. *)
Definition reply_text (to : Message) (text : string)
    (reply_markup : option InlineKeyboardMarkup) (parse_mode : option string)
    : M SentMessage :=
  emit (EvReplyText (chat_id to) text reply_markup parse_mode) ;;
  fun w =>
    (Ok (mk_Sent (chat_id to) (next_message_id w)),
     mk_World (env w) (users w) (airtime_requests w) (transactions w)
              (tick w) (draws w) (writes w) (next_message_id w + 1) (trace w)).

(** [message.edit_text(text)] *)
Definition edit_text (chat msg : Z) (text : string) : M unit :=
  emit (EvEditText chat msg text).

(** [message.delete()] *)
Definition delete (chat msg : Z) : M unit := emit (EvDelete chat msg).

(** [query.answer(text, show_alert)] *)
Definition answer (text : option string) (show_alert : bool) : M unit :=
  emit (EvAnswer text show_alert).

(** A write to the store: attempted, then either raising or applied. *)
Definition db_write (e : Event) (apply : World -> World) : M unit :=
  emit e ;;
  fun w =>
    let w' := mk_World (env w) (users w) (airtime_requests w) (transactions w)
                       (tick w) (draws w) (S (writes w)) (next_message_id w)
                       (trace w) in
    if write_fault (env w) (writes w) then (Raise PyMongoError, w')
    else (Ok tt, apply w').

(** [update.message], raising when an attribute of [None] is read. *)
Definition message_of (update : Update) : M Message :=
  match message update with
  | Some m => ret m
  | None => raise AttributeError
  end.

(** [update.effective_user], raising when an attribute of [None] is read. *)
Definition effective_user_of (update : Update) : M User :=
  match effective_user update with
  | Some u => ret u
  | None => raise AttributeError
  end.

(** [update.callback_query], raising when an attribute of [None] is read. *)
Definition callback_query_of (update : Update) : M CallbackQuery :=
  match callback_query update with
  | Some q => ret q
  | None => raise AttributeError
  end.

(** ** The program *)

(** The newline character of the Python literals. *)
Definition nl : string := String (ascii_of_nat 10) EmptyString.

(** [str(e)] as the logger prints it. *)
Definition exn_text (e : exn) : string :=
  match e with
  | AttributeError => "AttributeError"
  | IndexError => "IndexError"
  | PyMongoError => "PyMongoError"
  | TelegramError msg => msg
  end.

(** [xs[i]] *)
Definition index {A} (xs : list A) (i : nat) : result A :=
  match nth_error xs i with
  | Some x => Ok x
  | None => Raise IndexError
  end.

(** A computation without effects, run inside a handler. *)
Definition lift {A} (r : result A) : M A := fun w => (r, w).

(** [[f(i) for i in indices]] *)
Fixpoint comprehension {A} (f : nat -> result A) (indices : list nat) : result (list A) :=
  match indices with
  | [] => Ok []
  | i :: rest =>
      match f i with
      | Raise e => Raise e
      | Ok x =>
          match comprehension f rest with
          | Raise e => Raise e
          | Ok xs => Ok (x :: xs)
          end
      end
  end.

(** The module-level [CONFIG] dictionary, read from the environment of the
    process. *)
Record Config : Type := mk_Config {
  token : string;
  admin_id : Z;
  required_channels : list string;
  channel_links : list string
}.

Definition PROCESSING_FRAMES : list string :=
  [ "📱 Processing Airtime Request [▓▓░░░░░░░░░░░] 15%";
    "📱 Processing Airtime Request [▓▓▓░░░░░░░░░] 30%";
    "📱 Processing Airtime Request [▓▓▓▓▓░░░░░░░] 45%";
    "📱 Processing Airtime Request [▓▓▓▓▓▓▓░░░░░] 60%";
    "📱 Processing Airtime Request [▓▓▓▓▓▓▓▓▓░░░] 80%";
    "📱 Processing Airtime Request [▓▓▓▓▓▓▓▓▓▓▓] 100%" ].

(** *** Database functions *)

(** [update_one({'user_id': key}, {'$set': ...})] on the first matching
    document; [None] when no document matches. *)
Fixpoint update_first (key : Z) (set : UserDoc -> UserDoc) (docs : list UserDoc)
    : option (list UserDoc) :=
  match docs with
  | [] => None
  | d :: rest =>
      if user_id d =? key then Some (set d :: rest)
      else match update_first key set rest with
           | Some rest' => Some (d :: rest')
           | None => None
           end
  end.

(** The same with [upsert=True]: without a match, the document made of the
    filter and the [$set] fields is inserted. *)
Definition upsert (key : Z) (set : UserDoc -> UserDoc) (docs : list UserDoc)
    : list UserDoc :=
  match update_first key set docs with
  | Some docs' => docs'
  | None => docs ++ [set (mk_UserDoc key None "" None 0 0 "")]
  end.

Definition add_user (user : User) : M unit :=
  now <- datetime_now ;;
  db_write (EvUpdateOne users_collection (id user))
    (fun w =>
       with_users
         (upsert (id user)
            (fun d => mk_UserDoc (user_id d) (username user) (first_name user)
                                 (last_name user) 0 0 (strftime now))
            (users w)) w).

Definition add_airtime_request (user_id : Z) (network phone_number : string)
    (amount : Z) : M unit :=
  now <- datetime_now ;;
  db_write (EvInsertOne airtime_requests_collection)
    (fun w =>
       with_airtime_requests
         (airtime_requests w ++
          [mk_AirtimeRequestDoc user_id network phone_number amount "pending"
                                (strftime now)]) w).

(** The default of the [status] parameter of [add_transaction]. *)
Definition status_default : string := "completed".

Definition add_transaction (user_id : Z) (transaction_type : string)
    (amount : Z) (status : string) : M unit :=
  now <- datetime_now ;;
  db_write (EvInsertOne transactions_collection)
    (fun w =>
       with_transactions
         (transactions w ++
          [mk_TransactionDoc user_id transaction_type amount status
                             (strftime now)]) w).

(** [users_collection.find_one({'user_id': key})] *)
Definition find_one (key : Z) : M (option UserDoc) :=
  emit (EvFindOne users_collection key) ;;
  fun w => (Ok (find (fun d => user_id d =? key) (users w)), w).

(** [collection.count_documents(filter)] for the two filters in use. *)
Definition count_users : M nat :=
  emit (EvCountDocuments users_collection None) ;;
  fun w => (Ok (length (users w)), w).

Definition count_requests (key : option Z) : M nat :=
  emit (EvCountDocuments airtime_requests_collection key) ;;
  fun w =>
    (Ok (match key with
         | None => length (airtime_requests w)
         | Some k => length (filter (fun r => req_user_id r =? k) (airtime_requests w))
         end), w).

Definition get_user_stats (user_id : Z) : M (option UserDoc * nat) :=
  user <- find_one user_id ;;
  request_count <- count_requests (Some user_id) ;;
  ret (user, request_count).

Section Handlers.

Variable CONFIG : Config.

(** *** Force join *)

Fixpoint is_user_member_in (channels : list string) (user_id : Z) : M bool :=
  match channels with
  | [] => ret true
  | channel :: rest =>
      go_on <- try_except
        (status <- get_chat_member ("@" ++ channel) user_id ;;
         ret (str_in status ["member"; "administrator"; "creator"]))
        (fun e =>
           logger_error ("Error checking membership for " ++ str user_id ++
                         " in " ++ channel ++ ": " ++ exn_text e) ;;
           ret false) ;;
      if go_on then is_user_member_in rest user_id else ret false
  end.

(** [is_user_member(user_id, bot)]: the loop over
    [CONFIG['required_channels']]; each round either goes on to the next
    channel or returns [False]. *)
Definition is_user_member (user_id : Z) : M bool :=
  is_user_member_in (required_channels CONFIG) user_id.

Definition verify_button : InlineKeyboardButton :=
  mk_Button "✅ Verify" (callback_data "verify_membership").

Definition join_text : string :=
  "🪬 Verification Status: ⚠️ You must join the following channels to use this bot and verify you're not a robot 🚨"
  ++ nl ++ nl ++
  "Click the buttons below to join, then press *'✅ Verify'*.".

(** The rows of join buttons of [ask_user_to_join], with the [Verify] row
    appended. *)
Definition join_buttons : result InlineKeyboardMarkup :=
  match
    comprehension
      (fun i =>
         match index (required_channels CONFIG) i with
         | Raise e => Raise e
         | Ok channel =>
             match index (channel_links CONFIG) i with
             | Raise e => Raise e
             | Ok link => Ok [mk_Button ("Join " ++ channel) (url link)]
             end
         end)
      (seq 0 (length (required_channels CONFIG)))
  with
  | Raise e => Raise e
  | Ok buttons => Ok (buttons ++ [[verify_button]])%list
  end.

Definition ask_user_to_join (update : Update) : M unit :=
  buttons <- lift join_buttons ;;
  m <- message_of update ;;
  reply_text m join_text (Some buttons) (Some "Markdown") ;;
  ret tt.

(** *** Command handlers *)

Definition menu_keyboard : InlineKeyboardMarkup :=
  [ [mk_Button "📱 MTN Airtime" (callback_data "airtime_MTN")];
    [mk_Button "📱 Airtel Airtime" (callback_data "airtime_AIRTEL")];
    [mk_Button "📱 Glo Airtime" (callback_data "airtime_GLO")];
    [mk_Button "📱 9mobile Airtime" (callback_data "airtime_9MOBILE")] ].

Definition menu_text : string :=
  "📱 Welcome to the Airtime Request Bot!" ++ nl ++ nl ++
  "This bot allows you to request free airtime (demo version)." ++ nl ++ nl ++
  "Select your network below to get started:".

Definition start (update : Update) (context : Context) : M unit :=
  user <- effective_user_of update ;;
  add_user user ;;
  member <- is_user_member (id user) ;;
  if negb member then ask_user_to_join update
  else
    m <- message_of update ;;
    reply_text m menu_text (Some menu_keyboard) None ;;
    ret tt.

(** [x or 'N/A'] for an optional string. *)
Definition or_na (x : option string) : string :=
  match x with
  | Some EmptyString | None => "N/A"
  | Some s => s
  end.

Definition profile_text (user : User) (request_count : nat) (user_data : UserDoc)
    : string :=
  "👤 User Info:" ++ nl ++ nl ++
  "🆔 User ID: " ++ str (id user) ++ nl ++
  "🤵 Name: " ++ first_name user ++ nl ++
  "👤 Username: " ++ or_na (username user) ++ nl ++
  "📊 Airtime Requests: " ++ digits request_count ++ nl ++
  "⏳ Joined: " ++ join_date user_data.

Definition profile (update : Update) (context : Context) : M unit :=
  user <- effective_user_of update ;;
  member <- is_user_member (id user) ;;
  if negb member then ask_user_to_join update
  else
    stats <- get_user_stats (id user) ;;
    m <- message_of update ;;
    match fst stats with
    | None => raise AttributeError
    | Some user_data =>
        reply_text m (profile_text user (snd stats) user_data) None None ;;
        ret tt
    end.

Definition stats_denied : string := "⚠️ You are not authorized to use this command.".

Definition stats_text (user_count total_requests : nat) : string :=
  ("📊 *Bot Statistics*" ++ nl ++ nl) ++
  ("👥 Total Users: " ++ digits user_count ++ nl) ++
  ("📱 Total Airtime Requests: " ++ digits total_requests ++ nl ++ nl).

Definition stats (update : Update) (context : Context) : M unit :=
  user <- effective_user_of update ;;
  if negb (id user =? admin_id CONFIG) then
    m <- message_of update ;;
    reply_text m stats_denied None None ;;
    ret tt
  else
    user_count <- count_users ;;
    total_requests <- count_requests None ;;
    m <- message_of update ;;
    reply_text m (stats_text user_count total_requests) None (Some "Markdown") ;;
    ret tt.

Definition broadcast_denied : string := "❌ You don't have permission to use this command.".

Definition broadcast_usage : string := "❌ Please provide a message to broadcast.".

Definition broadcast_report (success : nat) : string :=
  "✅ Broadcast sent to " ++ digits success ++ " users.".

(** The [for user in users] loop of [broadcast]. *)
Fixpoint broadcast_loop (text : string) (recipients : list UserDoc) (success : nat)
    : M nat :=
  match recipients with
  | [] => ret success
  | user :: rest =>
      success' <- try_except
        (send_message (user_id user) text ;;
         ret (S success))
        (fun e =>
           logger_error ("Failed to send to " ++ str (user_id user) ++ ": " ++
                         exn_text e) ;;
           ret success) ;;
      broadcast_loop text rest success'
  end.

(** [users_collection.find({}, {'user_id': 1})] *)
Definition find_users : M (list UserDoc) :=
  emit (EvFind users_collection) ;;
  fun w => (Ok (users w), w).

Definition broadcast (update : Update) (context : Context) : M unit :=
  user <- effective_user_of update ;;
  if negb (id user =? admin_id CONFIG) then
    m <- message_of update ;;
    reply_text m broadcast_denied None None ;;
    ret tt
  else
    match args context with
    | [] =>
        m <- message_of update ;;
        reply_text m broadcast_usage None None ;;
        ret tt
    | _ :: _ =>
        let text := String.concat " " (args context) in
        recipients <- find_users ;;
        success <- broadcast_loop text recipients 0%nat ;;
        m <- message_of update ;;
        reply_text m (broadcast_report success) None None ;;
        ret tt
    end.

(** *** Verification callback *)

Definition verified_text : string := "✅ You are verified! You can now use the bot.".

Definition not_joined_text : string :=
  "⚠️ You haven't joined all the required channels yet!".

Definition verify_membership (update : Update) (context : Context) : M unit :=
  query <- callback_query_of update ;;
  let user_id := id (cq_from_user query) in
  member <- is_user_member user_id ;;
  if member then
    edit_text (chat_id (cq_message query)) (message_id (cq_message query))
              verified_text ;;
    start update context
  else
    answer (Some not_joined_text) true.

(** *** Airtime request *)

(** The [for frame in PROCESSING_FRAMES[1:]] loop. *)
Fixpoint animate (sent : SentMessage) (frames : list string) : M unit :=
  match frames with
  | [] => ret tt
  | frame :: rest =>
      asyncio_sleep 1 ;;
      edit_text (sent_chat sent) (sent_id sent) frame ;;
      animate sent rest
  end.

Definition show_processing_animation (query : CallbackQuery) : M SentMessage :=
  first <- lift (index PROCESSING_FRAMES 0) ;;
  sent <- reply_text (cq_message query) first None None ;;
  animate sent (tl PROCESSING_FRAMES) ;;
  ret sent.

Definition result_keyboard (network : string) : InlineKeyboardMarkup :=
  [ [mk_Button "🔄 Request Again" (callback_data ("airtime_" ++ network))];
    [mk_Button "📊 My Stats" (callback_data "my_stats")] ].

Definition success_text (network : string) (amount : Z) : string :=
  "🎉 Airtime Request Successful!" ++ nl ++ nl ++
  "📱 Network: " ++ network ++ nl ++
  "💰 Amount: " ++ str amount ++ " Naira" ++ nl ++
  "📞 Phone: DEMO_PHONE (for demonstration)" ++ nl ++ nl ++
  "⚠️ Note: This is a demo. No actual airtime will be sent.".

Definition handle_airtime_request (update : Update) (context : Context) : M unit :=
  query <- callback_query_of update ;;
  answer None false ;;
  processing_message <- show_processing_animation query ;;
  network <- lift (index (split "_" (data query)) 1) ;;
  draw <- random_randint 10 50 ;;
  let amount := draw * 10 in
  add_airtime_request (id (cq_from_user query)) network "DEMO_PHONE" amount ;;
  add_transaction (id (cq_from_user query)) "airtime" amount status_default ;;
  let keyboard := result_keyboard network in
  delete (sent_chat processing_message) (sent_id processing_message) ;;
  reply_text (cq_message query) (success_text network amount) (Some keyboard) None ;;
  ret tt.

(** *** The callback handlers registered by [main] *)

(** [re.match('^literal$', s)]: [$] also matches before a final newline. *)
Definition re_match (literal s : string) : bool :=
  String.eqb s literal || String.eqb s (literal ++ nl).

(** The [CallbackQueryHandler]s in the order [main] adds them: the first
    whose pattern matches the payload handles the press; a press that none
    matches is dropped. *)
Definition on_callback_query (update : Update) (context : Context) : M unit :=
  match callback_query update with
  | None => ret tt
  | Some query =>
      if re_match "airtime_MTN" (data query) then handle_airtime_request update context
      else if re_match "airtime_AIRTEL" (data query) then handle_airtime_request update context
      else if re_match "airtime_GLO" (data query) then handle_airtime_request update context
      else if re_match "airtime_9MOBILE" (data query) then handle_airtime_request update context
      else if re_match "verify_membership" (data query) then verify_membership update context
      else ret tt
  end.

End Handlers.

(** ** Reading a run *)

(** The world after the outside calls [evs], in that order, and nothing
    else: the store, the counters of draws and writes and the message ids
    are as before. *)
Definition advance (evs : list Event) (w : World) : World :=
  mk_World (env w) (users w) (airtime_requests w) (transactions w)
           (length evs + tick w) (draws w) (writes w) (next_message_id w)
           (trace w ++ evs).

Definition is_lookup (e : Event) : bool :=
  match e with EvGetChatMember _ _ => true | _ => false end.

Definition is_reply (e : Event) : bool :=
  match e with EvReplyText _ _ _ _ => true | _ => false end.

Definition is_send (e : Event) : bool :=
  match e with EvSendMessage _ _ => true | _ => false end.

Definition is_upsert (e : Event) : bool :=
  match e with EvUpdateOne _ _ => true | _ => false end.

(** The membership lookups, the messages sent in reply, the broadcast
    deliveries attempted and the upserts among some calls. *)
Definition lookups (evs : list Event) : list Event := filter is_lookup evs.
Definition replies (evs : list Event) : list Event := filter is_reply evs.
Definition deliveries (evs : list Event) : list Event := filter is_send evs.
Definition upserts (evs : list Event) : list Event := filter is_upsert evs.

(** Whether the lookup for one channel lets the loop of [is_user_member] go
    on. *)
Definition passes (e : Env) (user_id : Z) (channel : string) : bool :=
  match chat_member e ("@" ++ channel) user_id with
  | Ok status => str_in status ["member"; "administrator"; "creator"]
  | Raise _ => false
  end.

(** The calls [is_user_member] makes: a lookup per channel, a log line after
    a lookup that raised, and nothing after the first channel that does not
    pass. *)
Fixpoint oracle_trace (e : Env) (user_id : Z) (channels : list string) : list Event :=
  match channels with
  | [] => []
  | channel :: rest =>
      match chat_member e ("@" ++ channel) user_id with
      | Ok status =>
          EvGetChatMember ("@" ++ channel) user_id ::
          (if str_in status ["member"; "administrator"; "creator"]
           then oracle_trace e user_id rest else [])
      | Raise x =>
          [EvGetChatMember ("@" ++ channel) user_id;
           EvLoggerError ("Error checking membership for " ++ str user_id ++
                          " in " ++ channel ++ ": " ++ exn_text x)]
      end
  end.

(** The elements of a list up to and including the first that fails [p]. *)
Fixpoint upto_first_failure {A} (p : A -> bool) (l : list A) : list A :=
  match l with
  | [] => []
  | x :: rest => x :: (if p x then upto_first_failure p rest else [])
  end.

(** The verdict of the oracle for a user, read off the outside. *)
Definition member (CONFIG : Config) (e : Env) (user_id : Z) : bool :=
  forallb (passes e user_id) (required_channels CONFIG).

(** ** Outcomes of a command *)

(** The rows of join buttons of the prompt under a configuration with a link
    for each channel: one row per required channel, labelled with the
    channel and linking to it. *)
Definition join_rows (channels links : list string) : InlineKeyboardMarkup :=
  map (fun cl => [mk_Button ("Join " ++ fst cl) (url (snd cl))]) (combine channels links).

(** The verification prompt, the feature menu and the profile summary, as
    sent to a chat. *)
Definition prompt_reply (chat : Z) (buttons : InlineKeyboardMarkup) : Event :=
  EvReplyText chat join_text (Some buttons) (Some "Markdown").

Definition menu_reply (chat : Z) : Event :=
  EvReplyText chat menu_text (Some menu_keyboard) None.

Definition profile_reply (chat : Z) (user : User) (request_count : nat)
    (user_data : UserDoc) : Event :=
  EvReplyText chat (profile_text user request_count user_data) None None.

(** A handler returns normally from [w] and the messages it sent in reply
    are exactly [sent]. *)
Definition yields (h : M unit) (w : World) (sent : list Event) : Prop :=
  exists (evs : list Event) (w' : World),
    h w = (Ok tt, w') /\ trace w' = (trace w ++ evs)%list /\ replies evs = sent.

(** ** Calls of the broadcast and of the airtime flow *)

(** Whether a delivery to the chat of a stored user succeeds. *)
Definition reachable (e : Env) (user : UserDoc) : bool :=
  match send_error e (user_id user) with
  | None => true
  | Some _ => false
  end.

(** The calls of the loop of [broadcast]: an attempt per recipient, and a log
    line after an attempt that raised. *)
Fixpoint broadcast_trace (e : Env) (text : string) (recipients : list UserDoc)
    : list Event :=
  match recipients with
  | [] => []
  | user :: rest =>
      EvSendMessage (user_id user) text ::
      match send_error e (user_id user) with
      | None => broadcast_trace e text rest
      | Some msg =>
          EvLoggerError ("Failed to send to " ++ str (user_id user) ++ ": " ++ msg)
          :: broadcast_trace e text rest
      end
  end.

(** The calls of the flow before its writes: the answer to the button press,
    the first progress frame sent as message [msg], and the later frames
    edited into it, a second apart. *)
Definition progress_calls (chat msg : Z) : list Event :=
  EvAnswer None false ::
  EvReplyText chat (hd "" PROCESSING_FRAMES) None None ::
  flat_map (fun frame => [EvSleep 1; EvEditText chat msg frame]) (tl PROCESSING_FRAMES).

Definition summary_reply (chat : Z) (network : string) (amount : Z) : Event :=
  EvReplyText chat (success_text network amount) (Some (result_keyboard network)) None.

(** The outside with another answer to the membership lookups. *)
Definition with_chat_member (answers : string -> Z -> result string) (e : Env) : Env :=
  mk_Env answers (send_error e) (wall e) (rand e) (write_fault e).

(** The calls that show something to the user, and the calls made after the
    first insert attempted. *)
Definition shown_to_user (e : Event) : bool :=
  match e with
  | EvReplyText _ _ _ _ | EvEditText _ _ _ | EvAnswer _ _ | EvSendMessage _ _ => true
  | _ => false
  end.

Fixpoint after_insert (evs : list Event) : list Event :=
  match evs with
  | [] => []
  | EvInsertOne _ :: rest => rest
  | _ :: rest => after_insert rest
  end.

(** ** Repeated presses of Verify *)

(** [n] presses of Verify in a row. *)
Fixpoint presses (CONFIG : Config) (update : Update) (context : Context)
    (n : nat) (w : World) : World :=
  match n with
  | O => w
  | S n' => presses CONFIG update context n' (snd (verify_membership CONFIG update context w))
  end.

(** ** A scenario: user 555 and the required channel alpha *)

Module Scenario.

Definition config : Config :=
  mk_Config "token" 1 ["alpha"] ["https://t.me/alpha"].

Definition user555 : User := mk_User 555 (Some "u555") "Ada" None.

(** The clock: second [k] of 2024-01-01 10:00 after [k] calls. *)
Definition clock (k : nat) : datetime := mk_datetime 2024 1 1 10 0 k.

(** The outside when user 555 has the given status in alpha and the store
    raises on the writes selected by [fault]. *)
Definition outside (status : string) (fault : nat -> bool) : Env :=
  mk_Env (fun _ _ => Ok status) (fun _ => None) clock (fun _ => 7) fault.

Definition no_fault (k : nat) : bool := false.

(** The store raising on its [n]-th write from now. *)
Definition fault_at (n k : nat) : bool := Nat.eqb k n.

Definition fresh (status : string) (fault : nat -> bool) : World :=
  mk_World (outside status fault) [] [] [] 0 0 0 100 [].

(** [/start] or [/profile] typed by user 555, and a button pressed by them
    under the bot's message 7. *)
Definition command : Update :=
  mk_Update (Some (mk_Message 555 1 user555)) None.

Definition press (payload : string) : Update :=
  mk_Update None (Some (mk_CallbackQuery user555 payload (mk_Message 555 7 user555))).

Definition no_args : Context := mk_Context [].

(** The admin, and a store of three users of whom 777 blocked the bot. *)
Definition admin : User := mk_User 1 (Some "boss") "Bo" None.

Definition admin_command : Update :=
  mk_Update (Some (mk_Message 1 2 admin)) None.

Definition crowd : World :=
  mk_World
    (mk_Env (fun _ _ => Ok "member")
            (fun chat => if chat =? 777 then Some "Forbidden: bot was blocked by the user"
                         else None)
            clock (fun _ => 7) no_fault)
    [ mk_UserDoc 555 (Some "u555") "Ada" None 0 0 "2024-01-01 09:00:00";
      mk_UserDoc 777 None "Bob" None 0 0 "2024-01-01 09:10:00";
      mk_UserDoc 888 None "Cy" None 0 0 "2024-01-01 09:20:00" ]
    [] [] 0 0 0 100 [].

(** The document of user 555, and the world once they are registered. *)
Definition doc555 : UserDoc :=
  mk_UserDoc 555 (Some "u555") "Ada" None 0 0 "2024-01-01 09:00:00".

Definition registered (status : string) (fault : nat -> bool) : World :=
  mk_World (outside status fault) [doc555] [] [] 0 0 0 100 [].

Definition join_alpha : InlineKeyboardMarkup :=
  [ [mk_Button "Join alpha" (url "https://t.me/alpha")]; [verify_button] ].

End Scenario.

(** ** Tactics *)

(** Unfolding of a handler down to the calls it makes, on a world given by
    its fields. *)
Ltac run :=
  cbv beta iota zeta delta
    [start profile stats broadcast verify_membership ask_user_to_join
     handle_airtime_request show_processing_animation
     bind ret raise lift try_except
     effective_user_of message_of callback_query_of effective_user
     add_user add_airtime_request add_transaction db_write emit datetime_now
     reply_text edit_text delete answer find_one count_users count_requests
     get_user_stats find_users asyncio_sleep logger_error random_randint
     with_users with_airtime_requests with_transactions with_env advance
     env users airtime_requests transactions tick draws writes
     next_message_id trace fst snd negb animate tl PROCESSING_FRAMES
     sent_chat sent_id].

(** * The rest of the program *)

(** ** The connection string (module level) *)

(** [s.startswith(p)] *)
Fixpoint startswith (s p : string) {struct p} : bool :=
  match p, s with
  | EmptyString, _ => true
  | String a p', String b s' => Ascii.eqb a b && startswith s' p'
  | String _ _, EmptyString => false
  end.

(** [needle in s] *)
Fixpoint contains (needle s : string) : bool :=
  startswith s needle ||
  match s with
  | EmptyString => false
  | String _ s' => contains needle s'
  end.

(** [s.lower()] on the letters A to Z; the other bytes are kept.  For the
    test made with it, whether an all-ASCII needle without [i] and [k]
    occurs, this agrees with the lowering of the code points. *)
Definition lower_ascii (c : ascii) : ascii :=
  let n := nat_of_ascii c in
  if (Nat.leb 65 n && Nat.leb n 90)%bool then ascii_of_nat (n + 32) else c.

Fixpoint lower (s : string) : string :=
  match s with
  | EmptyString => EmptyString
  | String c s' => String (lower_ascii c) (lower s')
  end.

(** [s.count(c)] for a character. *)
Fixpoint occurrences (c : ascii) (s : string) : nat :=
  match s with
  | EmptyString => O
  | String a s' => (if Ascii.eqb a c then 1 else 0) + occurrences c s'
  end.

(** The two rewritings of [mongodb_uri] before [MongoClient] is called. *)
Definition add_retry_writes (mongodb_uri : string) : string :=
  if negb (contains "retryWrites" mongodb_uri) then
    if contains "?" mongodb_uri then mongodb_uri ++ "&retryWrites=true&w=majority"
    else mongodb_uri ++ "?retryWrites=true&w=majority"
  else mongodb_uri.

Definition add_ssl (mongodb_uri : string) : string :=
  if negb (contains "ssl=true" (lower mongodb_uri)) then
    if contains "?" mongodb_uri then mongodb_uri ++ "&ssl=true"
    else mongodb_uri ++ "?ssl=true"
  else mongodb_uri.

(** The string handed to [MongoClient], from [os.getenv('MONGODB_URI')];
    [None] stands for the [ValueError] raised when the variable is unset or
    empty. *)
Definition connection_uri (MONGODB_URI : option string) : option string :=
  match MONGODB_URI with
  | None | Some EmptyString => None
  | Some mongodb_uri => Some (add_ssl (add_retry_writes mongodb_uri))
  end.

(** ** [CONFIG] from the environment *)

(** [os.getenv(name, default)], given the value of the variable if set. *)
Definition getenv (value : option string) (default : string) : string :=
  match value with
  | Some s => s
  | None => default
  end.

(** The [CONFIG] dictionary from the values of [TELEGRAM_BOT_TOKEN],
    [REQUIRED_CHANNELS] and [CHANNEL_LINKS]; [admin] is the integer that
    [int(os.getenv('ADMIN_ID', ''))] returned. *)
Definition load_config (TELEGRAM_BOT_TOKEN : option string) (admin : Z)
    (REQUIRED_CHANNELS CHANNEL_LINKS : option string) : Config :=
  mk_Config (getenv TELEGRAM_BOT_TOKEN "") admin
            (split "," (getenv REQUIRED_CHANNELS "megahubbots"))
            (split "," (getenv CHANNEL_LINKS "https://t.me/megahubbots")).

(** ** The handlers [main] registers *)

Inductive Handler : Type :=
| on_start
| on_profile
| on_stats
| on_broadcast
| on_callback.

Definition handler (CONFIG : Config) (h : Handler) : Update -> Context -> M unit :=
  match h with
  | on_start => start CONFIG
  | on_profile => profile CONFIG
  | on_stats => stats CONFIG
  | on_broadcast => broadcast CONFIG
  | on_callback => on_callback_query CONFIG
  end.

(** ** What a handler may do to the store *)

Definition user_ids (w : World) : list Z := map user_id (users w).

Definition extends {A} (l l' : list A) : Prop := exists more, l' = (l ++ more)%list.

(** From [w] to [w']: the outside is the same, requests and transactions
    were only appended, no user id was lost and, if the user ids were
    distinct, they still are. *)
Record grows (w w' : World) : Prop := mk_grows {
  grows_env : env w' = env w;
  grows_requests : extends (airtime_requests w) (airtime_requests w');
  grows_transactions : extends (transactions w) (transactions w');
  grows_ids : incl (user_ids w) (user_ids w');
  grows_unique : NoDup (user_ids w) -> NoDup (user_ids w')
}.

(** Nothing of the store is written: the three collections and the count of
    writes attempted are as before. *)
Definition same_store (w w' : World) : Prop :=
  users w' = users w /\ airtime_requests w' = airtime_requests w /\
  transactions w' = transactions w /\ writes w' = writes w.

(** The same outside and the same store: what every call other than a write
    to the store leaves. *)
Definition quiet (w w' : World) : Prop := env w' = env w /\ same_store w w'.

(** A relation between the world before and the world after, kept by going
    on and by every call that is [quiet]. *)
Class Calm (R : World -> World -> Prop) : Prop := mk_Calm {
  calm_refl : forall w, R w w;
  calm_trans : forall a b c, R a b -> R b c -> R a c;
  calm_quiet : forall w w', quiet w w' -> R w w'
}.

(** A computation of a handler that, however it ends, leaves a world
    related by [R] to the one it started in. *)
Definition keeps (R : World -> World -> Prop) {A} (m : M A) : Prop :=
  forall w, R w (snd (m w)).

(** The log lines among some calls. *)
Definition is_log (e : Event) : bool :=
  match e with EvLoggerError _ => true | _ => false end.


(** * Properties *)

(** ** Sample runs of the string functions *)

Example strftime_sample :
  strftime (mk_datetime 2024 3 9 7 5 0) = "2024-03-09 07:05:00".
Proof. reflexivity. Qed.

Example split_sample : split "_" "airtime_9MOBILE" = ["airtime"; "9MOBILE"].
Proof. reflexivity. Qed.

(** ** Runs of the primitives and of the oracle *)

Lemma emit_run (e : Event) (w : World) : emit e w = (Ok tt, advance [e] w).
Proof. reflexivity. Qed.

Lemma advance_nil (w : World) : advance [] w = w.
Proof. destruct w; unfold advance; simpl; now rewrite app_nil_r. Qed.

Lemma advance_advance (a b : list Event) (w : World) :
  advance b (advance a w) = advance (a ++ b) w.
Proof.
  unfold advance; simpl.
  rewrite length_app, <- app_assoc.
  replace (length b + (length a + tick w))%nat
    with (length a + length b + tick w)%nat by lia.
  reflexivity.
Qed.

Lemma env_advance (evs : list Event) (w : World) : env (advance evs w) = env w.
Proof. reflexivity. Qed.

Lemma get_chat_member_run (chat : string) (user : Z) (w : World) :
  get_chat_member chat user w =
  (chat_member (env w) chat user, advance [EvGetChatMember chat user] w).
Proof. reflexivity. Qed.

Lemma str_in_allowed (status : string) :
  str_in status ["member"; "administrator"; "creator"] = true <->
  status = "member" \/ status = "administrator" \/ status = "creator".
Proof.
  unfold str_in; simpl.
  rewrite !orb_true_iff, !String.eqb_eq.
  intuition congruence.
Qed.

(** The run of the loop of [is_user_member]: it never raises, answers the
    conjunction of [passes] over the channels and makes the calls of
    [oracle_trace]. *)
Lemma is_user_member_in_run (channels : list string) (user_id : Z) (w : World) :
  is_user_member_in channels user_id w =
  (Ok (forallb (passes (env w) user_id) channels),
   advance (oracle_trace (env w) user_id channels) w).
Proof.
  revert w; induction channels as [|channel rest IH]; intros w.
  - cbn [is_user_member_in oracle_trace forallb]. unfold ret.
    now rewrite advance_nil.
  - cbn [is_user_member_in oracle_trace forallb].
    unfold bind at 1, try_except, bind at 1.
    rewrite get_chat_member_run. unfold passes at 1.
    destruct (chat_member (env w) ("@" ++ channel) user_id) as [status|x].
    + unfold ret at 1.
      destruct (str_in status ["member"; "administrator"; "creator"]).
      * rewrite IH, env_advance, advance_advance. reflexivity.
      * reflexivity.
    + unfold bind, logger_error, ret. rewrite emit_run, advance_advance.
      reflexivity.
Qed.

Lemma is_user_member_run (CONFIG : Config) (user_id : Z) (w : World) :
  is_user_member CONFIG user_id w =
  (Ok (member CONFIG (env w) user_id),
   advance (oracle_trace (env w) user_id (required_channels CONFIG)) w).
Proof. apply is_user_member_in_run. Qed.

Lemma lookups_oracle_trace (e : Env) (user_id : Z) (channels : list string) :
  lookups (oracle_trace e user_id channels) =
  map (fun channel => EvGetChatMember ("@" ++ channel) user_id)
      (upto_first_failure (passes e user_id) channels).
Proof.
  induction channels as [|channel rest IH]; [reflexivity|].
  cbn [oracle_trace upto_first_failure map]. unfold passes at 1.
  destruct (chat_member e ("@" ++ channel) user_id) as [status|x].
  - unfold lookups. cbn [filter is_lookup]. f_equal.
    destruct (str_in status ["member"; "administrator"; "creator"]).
    + apply IH.
    + reflexivity.
  - reflexivity.
Qed.

Lemma passes_iff (e : Env) (user_id : Z) (channel : string) :
  passes e user_id channel = true <->
  exists status, chat_member e ("@" ++ channel) user_id = Ok status /\
                 (status = "member" \/ status = "administrator" \/ status = "creator").
Proof.
  unfold passes.
  destruct (chat_member e ("@" ++ channel) user_id) as [status|x].
  - rewrite str_in_allowed. split.
    + intros H. now exists status.
    + intros (s & Hs & H). now inversion Hs; subst.
  - split; [discriminate|]. intros (s & Hs & _). discriminate.
Qed.

(** ** Calls of a kind among the calls of a run *)

Lemma replies_app (a b : list Event) : replies (a ++ b) = (replies a ++ replies b)%list.
Proof. apply filter_app. Qed.

Lemma lookups_app (a b : list Event) : lookups (a ++ b) = (lookups a ++ lookups b)%list.
Proof. apply filter_app. Qed.

Lemma upserts_app (a b : list Event) : upserts (a ++ b) = (upserts a ++ upserts b)%list.
Proof. apply filter_app. Qed.

Lemma replies_oracle_trace (e : Env) (user_id : Z) (channels : list string) :
  replies (oracle_trace e user_id channels) = [].
Proof.
  induction channels as [|channel rest IH]; [reflexivity|].
  cbn [oracle_trace].
  destruct (chat_member e ("@" ++ channel) user_id) as [status|x]; [|reflexivity].
  destruct (str_in status ["member"; "administrator"; "creator"]);
    [apply IH | reflexivity].
Qed.

Lemma upserts_oracle_trace (e : Env) (user_id : Z) (channels : list string) :
  upserts (oracle_trace e user_id channels) = [].
Proof.
  induction channels as [|channel rest IH]; [reflexivity|].
  cbn [oracle_trace].
  destruct (chat_member e ("@" ++ channel) user_id) as [status|x]; [|reflexivity].
  destruct (str_in status ["member"; "administrator"; "creator"]);
    [apply IH | reflexivity].
Qed.

Lemma upserts_oracle_then (e : Env) (user_id : Z) (channels : list string)
    (rest : list Event) :
  upserts rest = [] -> upserts (oracle_trace e user_id channels ++ rest) = [].
Proof. intros H. now rewrite upserts_app, upserts_oracle_trace, H. Qed.

(** A run that stops right after the oracle's calls, read as followed by no
    call. *)
Ltac pad oracle :=
  try match goal with
      | |- context [(?t ++ oracle)%list] =>
          replace (t ++ oracle)%list with (t ++ oracle ++ [])%list
            by now rewrite app_nil_r
      end.

(** Closing a goal about the calls that follow the oracle's. *)
Ltac after_oracle oracle :=
  repeat split;
  try reflexivity;
  try (unfold oracle; apply upserts_oracle_then; reflexivity);
  try (unfold oracle; apply upserts_oracle_trace);
  try (eexists; split; reflexivity);
  try (exists []; split; [now rewrite app_nil_r | reflexivity]).

(** ** The buttons of the prompt *)

Lemma comprehension_rows (seen_c seen_l channels links : list string) :
  length seen_c = length seen_l ->
  (length channels <= length links)%nat ->
  comprehension
    (fun i =>
       match index (seen_c ++ channels) i with
       | Raise e => Raise e
       | Ok channel =>
           match index (seen_l ++ links) i with
           | Raise e => Raise e
           | Ok link => Ok [mk_Button ("Join " ++ channel) (url link)]
           end
       end)
    (seq (length seen_c) (length channels)) =
  Ok (join_rows channels links).
Proof.
  revert seen_c seen_l links.
  induction channels as [|c rest IH]; intros seen_c seen_l links Hlen Hle.
  - reflexivity.
  - destruct links as [|l links']; [cbn [length] in Hle; lia|].
    cbn [length seq comprehension].
    unfold index at 1 2.
    rewrite nth_error_app2 by lia. rewrite Nat.sub_diag. cbn [nth_error].
    rewrite Hlen at 1. rewrite nth_error_app2 by lia. rewrite Nat.sub_diag.
    cbn [nth_error].
    replace (seen_c ++ c :: rest)%list with ((seen_c ++ [c]) ++ rest)%list
      by now rewrite <- app_assoc.
    replace (seen_l ++ l :: links')%list with ((seen_l ++ [l]) ++ links')%list
      by now rewrite <- app_assoc.
    replace (S (length seen_c)) with (length (seen_c ++ [c]))
      by (rewrite length_app; cbn [length]; lia).
    rewrite IH.
    + reflexivity.
    + rewrite !length_app. cbn [length]. lia.
    + cbn [length] in Hle. lia.
Qed.

(** With a link for each required channel, the prompt has one join button
    per channel and the Verify button. *)
Lemma join_buttons_shape (CONFIG : Config) :
  (length (required_channels CONFIG) <= length (channel_links CONFIG))%nat ->
  join_buttons CONFIG =
  Ok (join_rows (required_channels CONFIG) (channel_links CONFIG) ++ [[verify_button]])%list.
Proof.
  intros Hle. unfold join_buttons.
  pose proof (@comprehension_rows [] [] _ _ eq_refl Hle) as H.
  cbn [app length] in H. rewrite H. reflexivity.
Qed.

(** ** Runs of the broadcast loop *)

Lemma send_message_run (chat : Z) (text : string) (w : World) :
  send_message chat text w =
  (match send_error (env w) chat with
   | Some msg => Raise (TelegramError msg)
   | None => Ok tt
   end, advance [EvSendMessage chat text] w).
Proof.
  unfold send_message, bind. rewrite emit_run. cbn [env advance].
  destruct (send_error (env w) chat); reflexivity.
Qed.

(** The run of the loop: it never raises, and adds to the count the number
    of reachable recipients. *)
Lemma broadcast_loop_run (text : string) (recipients : list UserDoc)
    (success : nat) (w : World) :
  broadcast_loop text recipients success w =
  (Ok (success + length (filter (reachable (env w)) recipients))%nat,
   advance (broadcast_trace (env w) text recipients) w).
Proof.
  revert success w; induction recipients as [|user rest IH]; intros success w.
  - cbn [broadcast_loop broadcast_trace filter length]. unfold ret.
    now rewrite advance_nil, Nat.add_0_r.
  - cbn [broadcast_loop broadcast_trace filter].
    unfold bind at 1, try_except, bind at 1.
    rewrite send_message_run. unfold reachable at 1.
    destruct (send_error (env w) (user_id user)) as [msg|].
    + unfold bind, logger_error, ret. rewrite emit_run, advance_advance.
      rewrite IH, env_advance, advance_advance. reflexivity.
    + unfold ret at 1. rewrite IH, env_advance, advance_advance.
      cbn [length]. now rewrite Nat.add_succ_r.
Qed.

Lemma deliveries_broadcast_trace (e : Env) (text : string) (recipients : list UserDoc) :
  deliveries (broadcast_trace e text recipients) =
  map (fun user => EvSendMessage (user_id user) text) recipients.
Proof.
  induction recipients as [|user rest IH]; [reflexivity|].
  cbn [broadcast_trace map]. unfold deliveries. cbn [filter is_send]. f_equal.
  destruct (send_error e (user_id user)); [cbn [filter is_send]|]; apply IH.
Qed.

Lemma replies_broadcast_trace (e : Env) (text : string) (recipients : list UserDoc) :
  replies (broadcast_trace e text recipients) = [].
Proof.
  induction recipients as [|user rest IH]; [reflexivity|].
  cbn [broadcast_trace]. unfold replies. cbn [filter is_reply].
  destruct (send_error e (user_id user)); [cbn [filter is_reply]|]; apply IH.
Qed.

Lemma filter_split_length {A} (p : A -> bool) (l : list A) :
  (length (filter p l) + length (filter (fun x => negb (p x)) l))%nat = length l.
Proof.
  induction l as [|x rest IH]; [reflexivity|].
  cbn [filter]. destruct (p x); cbn [negb length]; lia.
Qed.

(** ** Runs of the airtime flow *)

Lemma first_frame :
  index PROCESSING_FRAMES 0 = Ok "📱 Processing Airtime Request [▓▓░░░░░░░░░░░] 15%".
Proof. reflexivity. Qed.

(** What the handler leaves when a write raises: the calls made, and no
    success summary among them. *)
Lemma no_summary_in_progress (chat msg : Z) (tail : list Event) (network : string)
    (amount : Z) :
  replies tail = [] ->
  ~ In (summary_reply chat network amount) (progress_calls chat msg ++ tail).
Proof.
  intros Htail Hin. apply in_app_or in Hin. destruct Hin as [Hin|Hin].
  - unfold progress_calls, summary_reply in Hin.
    cbv beta iota delta [PROCESSING_FRAMES tl hd flat_map app In] in Hin.
    repeat (destruct Hin as [Hin|Hin]; [discriminate Hin|]). exact Hin.
  - assert (H : In (summary_reply chat network amount) (replies tail)).
    { apply filter_In. now split. }
    rewrite Htail in H. exact H.
Qed.

(** With a network in the payload and no write raising, the flow returns
    normally: progress calls, the two inserts, the progress message deleted,
    the summary sent. *)
Lemma handle_airtime_request_completes (update : Update) (context : Context)
    (w : World) (q : CallbackQuery) (net : string) :
  callback_query update = Some q ->
  index (split "_" (data q)) 1 = Ok net ->
  write_fault (env w) (writes w) = false ->
  write_fault (env w) (S (writes w)) = false ->
  let chat := chat_id (cq_message q) in
  exists w',
    handle_airtime_request update context w = (Ok tt, w') /\
    trace w' =
      (trace w ++ progress_calls chat (next_message_id w) ++
       [EvInsertOne airtime_requests_collection;
        EvInsertOne transactions_collection;
        EvDelete chat (next_message_id w);
        summary_reply chat net
          ((10 + rand (env w) (draws w) mod (50 - 10 + 1)) * 10)])%list.
Proof.
  intros Hq Hnet H1 H2 chat.
  destruct w as [e us rs ts tk dr wr nm tr].
  cbv beta iota delta [env writes trace next_message_id draws] in *.
  unfold handle_airtime_request, show_processing_animation.
  rewrite first_frame. run. rewrite Hq. run. rewrite Hnet. run.
  rewrite H1, H2. rewrite <- ?app_assoc.
  eexists. split; reflexivity.
Qed.


(** ** Runs of the Verify button and of the upsert *)

(** While the user is not a member, a press of Verify makes the oracle's
    calls and answers the press with the alert; nothing else changes. *)
Lemma verify_membership_failure (CONFIG : Config) (update : Update)
    (context : Context) (w : World) (q : CallbackQuery) :
  callback_query update = Some q ->
  member CONFIG (env w) (id (cq_from_user q)) = false ->
  verify_membership CONFIG update context w =
  (Ok tt,
   advance (oracle_trace (env w) (id (cq_from_user q)) (required_channels CONFIG) ++
            [EvAnswer (Some not_joined_text) true]) w).
Proof.
  intros Hq Hmem. unfold verify_membership, callback_query_of. rewrite Hq.
  unfold bind at 1, ret at 1. unfold bind. rewrite is_user_member_run, Hmem.
  unfold answer. now rewrite emit_run, advance_advance.
Qed.

(** Repeated failed presses leave every stored document as it was. *)
Lemma failed_presses_keep_store (CONFIG : Config) (update : Update)
    (context : Context) (q : CallbackQuery) (n : nat) (w : World) :
  callback_query update = Some q ->
  member CONFIG (env w) (id (cq_from_user q)) = false ->
  users (presses CONFIG update context n w) = users w /\
  airtime_requests (presses CONFIG update context n w) = airtime_requests w /\
  transactions (presses CONFIG update context n w) = transactions w.
Proof.
  intros Hq. revert w. induction n as [|n IH]; intros w Hmem.
  - now repeat split.
  - cbn [presses]. rewrite (@verify_membership_failure CONFIG update context w q Hq Hmem). cbn [snd].
    destruct (IH (advance (oracle_trace (env w) (id (cq_from_user q))
                             (required_channels CONFIG) ++
                           [EvAnswer (Some not_joined_text) true]) w) Hmem)
      as (Hu & Hr & Ht).
    split; [exact Hu|]. split; [exact Hr | exact Ht].
Qed.

(** When the user is a member, a press of Verify edits the prompt, upserts
    the user and queries the oracle again, and then stops on
    [update.message], which a button press does not carry: no message is
    sent in reply, the feature menu least of all. *)
Lemma verify_membership_success (CONFIG : Config) (update : Update)
    (context : Context) (w : World) (q : CallbackQuery) :
  message update = None ->
  callback_query update = Some q ->
  member CONFIG (env w) (id (cq_from_user q)) = true ->
  write_fault (env w) (writes w) = false ->
  exists w',
    verify_membership CONFIG update context w = (Raise AttributeError, w') /\
    trace w' =
      (trace w ++
       oracle_trace (env w) (id (cq_from_user q)) (required_channels CONFIG) ++
       [EvEditText (chat_id (cq_message q)) (message_id (cq_message q)) verified_text;
        EvUpdateOne users_collection (id (cq_from_user q))] ++
       oracle_trace (env w) (id (cq_from_user q)) (required_channels CONFIG))%list.
Proof.
  intros Hm Hq Hmem Hw. destruct w as [e us rs ts tk dr wr nm tr].
  cbv beta iota delta [env writes trace] in *.
  run. rewrite Hq. run. rewrite is_user_member_run. run. rewrite Hmem. run.
  rewrite Hm. run. rewrite Hw. rewrite is_user_member_run. run. rewrite Hmem. run.
  eexists. split; [reflexivity|]. now rewrite <- !app_assoc.
Qed.

(** The upsert does not duplicate a stored user: the collection keeps its
    length. *)
Lemma upsert_existing_length (key : Z) (set : UserDoc -> UserDoc) (docs : list UserDoc) :
  existsb (fun d => user_id d =? key) docs = true ->
  length (upsert key set docs) = length docs.
Proof.
  unfold upsert. induction docs as [|d rest IH]; [discriminate|].
  cbn [existsb update_first]. destruct (user_id d =? key); [reflexivity|].
  cbn [orb]. intros H. specialize (IH H).
  destruct (update_first key set rest); cbn [length] in *; [now f_equal|].
  rewrite length_app in IH. cbn [length] in IH. lia.
Qed.

(** On a stored user, [add_user] overwrites the balance, the request count
    and the join date along with the display fields. *)
Lemma add_user_overwrites (user : User) (d : UserDoc) (rest : list UserDoc)
    (w : World) :
  users w = d :: rest ->
  user_id d = id user ->
  write_fault (env w) (writes w) = false ->
  users (snd (add_user user w)) =
  mk_UserDoc (user_id d) (username user) (first_name user) (last_name user)
             0 0 (strftime (wall (env w) (tick w))) :: rest.
Proof.
  intros Hus Hid Hw. destruct w as [e us rs ts tk dr wr nm tr].
  cbv beta iota delta [env writes users tick] in *. subst us.
  run. rewrite Hw. unfold upsert. cbn [update_first].
  rewrite Hid, Z.eqb_refl. reflexivity.
Qed.

(** ** Gated commands (C1) *)

Lemma prompt_is_not_menu (chat chat' : Z) (buttons : InlineKeyboardMarkup) :
  prompt_reply chat buttons <> menu_reply chat'.
Proof. unfold prompt_reply, menu_reply. intros H. discriminate H. Qed.

(** C1, as the code has it.  For a command that arrives as a chat message,
    under a configuration that gives a link for each required channel: when
    the user fails the membership check, the entry command (its upsert
    succeeding) and the profile command each send exactly the verification
    prompt, which is not the feature menu; when the user passes it, the entry
    command sends exactly the feature menu, and the profile command, for a
    user whose record is stored, sends exactly the profile summary (neither
    the prompt nor the menu). *)
Theorem gated_command_outcome (CONFIG : Config) (update : Update)
    (context : Context) (w : World) (m : Message) (buttons : InlineKeyboardMarkup) :
  message update = Some m ->
  join_buttons CONFIG = Ok buttons ->
  let user := from_user m in
  if member CONFIG (env w) (id user) then
    (write_fault (env w) (writes w) = false ->
     yields (start CONFIG update context) w [menu_reply (chat_id m)]) /\
    (forall user_data,
       find (fun d => user_id d =? id user) (users w) = Some user_data ->
       yields (profile CONFIG update context) w
         [profile_reply (chat_id m) user
            (length (filter (fun r => req_user_id r =? id user) (airtime_requests w)))
            user_data])
  else
    (write_fault (env w) (writes w) = false ->
     yields (start CONFIG update context) w [prompt_reply (chat_id m) buttons]) /\
    yields (profile CONFIG update context) w [prompt_reply (chat_id m) buttons].
Proof.
  intros Hm Hb user. subst user.
  destruct w as [e us rs ts tk dr wr nm tr]. cbn [env writes users airtime_requests].
  set (uid := id (from_user m)).
  set (oracle := oracle_trace e uid (required_channels CONFIG)).
  destruct (member CONFIG e uid) eqn:Hmem; split.
  - intros Hw. unfold yields. run. rewrite Hm. run. rewrite Hw.
    rewrite is_user_member_run. run. fold uid. rewrite Hmem. run.
    exists (EvUpdateOne users_collection uid :: oracle ++ [menu_reply (chat_id m)])%list.
    eexists. split; [reflexivity|]. split.
    + fold uid oracle. now rewrite <- !app_assoc.
    + change (replies (oracle ++ [menu_reply (chat_id m)]) = [menu_reply (chat_id m)]).
      unfold oracle. now rewrite replies_app, replies_oracle_trace.
  - intros user_data Hfind. unfold yields. run. rewrite Hm. run.
    rewrite is_user_member_run. run. fold uid. rewrite Hmem. run. rewrite Hfind.
    eexists (oracle ++ [EvFindOne users_collection uid;
                        EvCountDocuments airtime_requests_collection (Some uid); _])%list.
    eexists. split; [reflexivity|]. split.
    + fold uid oracle. now rewrite <- !app_assoc.
    + unfold oracle. now rewrite replies_app, replies_oracle_trace.
  - intros Hw. unfold yields. run. rewrite Hm. run. rewrite Hw.
    rewrite is_user_member_run. run. fold uid. rewrite Hmem, Hb. run.
    exists (EvUpdateOne users_collection uid :: oracle ++ [prompt_reply (chat_id m) buttons])%list.
    eexists. split; [reflexivity|]. split.
    + fold uid oracle. now rewrite <- !app_assoc.
    + change (replies (oracle ++ [prompt_reply (chat_id m) buttons]) =
              [prompt_reply (chat_id m) buttons]).
      unfold oracle. now rewrite replies_app, replies_oracle_trace.
  - unfold yields. run. rewrite Hm. run.
    rewrite is_user_member_run. run. fold uid. rewrite Hmem, Hb. run.
    exists (oracle ++ [prompt_reply (chat_id m) buttons])%list.
    eexists. split; [reflexivity|]. split.
    + fold uid oracle. now rewrite <- !app_assoc.
    + unfold oracle. now rewrite replies_app, replies_oracle_trace.
Qed.

Lemma gated_command_outcome_witness :
  message Scenario.command = Some (mk_Message 555 1 Scenario.user555) /\
  join_buttons Scenario.config = Ok Scenario.join_alpha /\
  yields (start Scenario.config Scenario.command Scenario.no_args)
         (Scenario.registered "left" Scenario.no_fault)
         [prompt_reply 555 Scenario.join_alpha] /\
  yields (profile Scenario.config Scenario.command Scenario.no_args)
         (Scenario.registered "left" Scenario.no_fault)
         [prompt_reply 555 Scenario.join_alpha] /\
  yields (start Scenario.config Scenario.command Scenario.no_args)
         (Scenario.registered "creator" Scenario.no_fault)
         [menu_reply 555] /\
  yields (profile Scenario.config Scenario.command Scenario.no_args)
         (Scenario.registered "creator" Scenario.no_fault)
         [profile_reply 555 Scenario.user555 0 Scenario.doc555].
Proof.
  split; [reflexivity|]. split; [reflexivity|].
  destruct (gated_command_outcome Scenario.config Scenario.command
              Scenario.no_args (Scenario.registered "left" Scenario.no_fault)
              (m := mk_Message 555 1 Scenario.user555)
              (buttons := Scenario.join_alpha) eq_refl eq_refl) as [Hs Hp].
  destruct (gated_command_outcome Scenario.config Scenario.command
              Scenario.no_args (Scenario.registered "creator" Scenario.no_fault)
              (m := mk_Message 555 1 Scenario.user555)
              (buttons := Scenario.join_alpha) eq_refl eq_refl) as [Hs' Hp'].
  split; [exact (Hs eq_refl)|]. split; [exact Hp|].
  split; [exact (Hs' eq_refl)|]. exact (Hp' Scenario.doc555 eq_refl).
Defined.

(** C1, as stated, fails on the profile command: for the registered user
    555, who passes the membership check, [/profile] returns normally and
    sends the profile summary; the feature menu is not among its calls. *)
Lemma profile_of_member_sends_no_menu :
  member Scenario.config (env (Scenario.registered "member" Scenario.no_fault)) 555 = true /\
  fst (profile Scenario.config Scenario.command Scenario.no_args
         (Scenario.registered "member" Scenario.no_fault)) = Ok tt /\
  replies (trace (snd (profile Scenario.config Scenario.command Scenario.no_args
                         (Scenario.registered "member" Scenario.no_fault)))) =
    [profile_reply 555 Scenario.user555 0 Scenario.doc555] /\
  ~ In (menu_reply 555)
       (trace (snd (profile Scenario.config Scenario.command Scenario.no_args
                      (Scenario.registered "member" Scenario.no_fault)))).
Proof.
  split; [reflexivity|]. split; [reflexivity|]. split; [reflexivity|].
  vm_compute. intuition discriminate.
Qed.

(** ** The membership oracle (C2) *)

(** C2.  [is_user_member] answers [True] exactly when the lookup reports, for
    every required channel, one of the statuses member, administrator and
    creator (the owner); any other status and any exception of the lookup
    give [False]; and the lookups made are those of the channels up to and
    including the first one that fails, none after it. *)
Theorem is_user_member_fails_closed (CONFIG : Config) (user_id : Z) (w : World) :
  exists (b : bool) (evs : list Event),
    is_user_member CONFIG user_id w = (Ok b, advance evs w) /\
    (b = true <->
     forall channel, In channel (required_channels CONFIG) ->
       exists status,
         chat_member (env w) ("@" ++ channel) user_id = Ok status /\
         (status = "member" \/ status = "administrator" \/ status = "creator")) /\
    lookups evs =
      map (fun channel => EvGetChatMember ("@" ++ channel) user_id)
          (upto_first_failure (passes (env w) user_id) (required_channels CONFIG)).
Proof.
  exists (member CONFIG (env w) user_id),
         (oracle_trace (env w) user_id (required_channels CONFIG)).
  split; [apply is_user_member_run|].
  split; [|apply lookups_oracle_trace].
  unfold member. rewrite forallb_forall.
  split; intros H channel Hin.
  - apply passes_iff, H, Hin.
  - apply passes_iff, H, Hin.
Qed.

(** ** Records of a completed flow (C3) *)

(** C3.  When the flow for a button press returns normally, on a wall clock
    that does not go back during it: one AirtimeRequest and one Transaction
    were appended to their collections and nothing else changed in them;
    both carry the id of the user who pressed; their timestamps render clock
    readings not earlier than the reading at the start of the flow; the
    amount is between 100 and 500 and a multiple of 10; the request is
    'pending' and the transaction 'completed'. *)
Theorem completed_flow_records (update : Update) (context : Context) (w w' : World) :
  handle_airtime_request update context w = (Ok tt, w') ->
  (forall k, (tick w <= k)%nat ->
             dt_leb (wall (env w) (tick w)) (wall (env w) k) = true) ->
  exists (q : CallbackQuery) (r : AirtimeRequestDoc) (t : TransactionDoc)
         (at_r at_t : datetime),
    callback_query update = Some q /\
    airtime_requests w' = (airtime_requests w ++ [r])%list /\
    transactions w' = (transactions w ++ [t])%list /\
    req_user_id r = id (cq_from_user q) /\
    tx_user_id t = id (cq_from_user q) /\
    req_timestamp r = strftime at_r /\
    dt_leb (wall (env w) (tick w)) at_r = true /\
    tx_timestamp t = strftime at_t /\
    dt_leb (wall (env w) (tick w)) at_t = true /\
    100 <= amount r <= 500 /\ amount r mod 10 = 0 /\
    req_status r = "pending" /\ tx_status t = "completed".
Proof.
  intros H Hclock. destruct w as [e us rs ts tk dr wr nm tr].
  cbn [env tick airtime_requests transactions] in *.
  revert H. unfold handle_airtime_request, show_processing_animation.
  rewrite first_frame. run.
  destruct (callback_query update) as [q|]; [|discriminate].
  destruct (index (split "_" (data q)) 1) as [net|]; [|discriminate].
  destruct (write_fault e wr); [discriminate|].
  destruct (write_fault e (S wr)); [discriminate|].
  intros H. apply (f_equal snd) in H.
  cbv beta iota delta [snd] in H. subst w'.
  cbv beta iota delta [airtime_requests transactions].
  pose proof (Z.mod_pos_bound (rand e dr) (50 - 10 + 1) ltac:(lia)) as Hdraw.
  eexists q, _, _, _, _.
  repeat match goal with |- _ /\ _ => split end;
    try reflexivity; cbv beta iota delta [amount];
    try (apply Hclock; lia); try lia.
  apply Z_mod_mult.
Qed.

Lemma completed_flow_records_witness :
  exists (q : CallbackQuery) (r : AirtimeRequestDoc) (t : TransactionDoc)
         (at_r at_t : datetime),
    callback_query (Scenario.press "airtime_MTN") = Some q /\
    airtime_requests
      (snd (handle_airtime_request (Scenario.press "airtime_MTN") Scenario.no_args
              (Scenario.registered "left" Scenario.no_fault))) = [r] /\
    transactions
      (snd (handle_airtime_request (Scenario.press "airtime_MTN") Scenario.no_args
              (Scenario.registered "left" Scenario.no_fault))) = [t] /\
    req_user_id r = id (cq_from_user q) /\
    tx_user_id t = id (cq_from_user q) /\
    req_timestamp r = strftime at_r /\
    dt_leb (Scenario.clock 0) at_r = true /\
    tx_timestamp t = strftime at_t /\
    dt_leb (Scenario.clock 0) at_t = true /\
    100 <= amount r <= 500 /\ amount r mod 10 = 0 /\
    req_status r = "pending" /\ tx_status t = "completed".
Proof.
  assert (Hrun :
    handle_airtime_request (Scenario.press "airtime_MTN") Scenario.no_args
      (Scenario.registered "left" Scenario.no_fault) =
    (Ok tt,
     snd (handle_airtime_request (Scenario.press "airtime_MTN") Scenario.no_args
            (Scenario.registered "left" Scenario.no_fault))))
    by (vm_compute; reflexivity).
  assert (Hclock : forall k,
    (tick (Scenario.registered "left" Scenario.no_fault) <= k)%nat ->
    dt_leb (wall (env (Scenario.registered "left" Scenario.no_fault))
                 (tick (Scenario.registered "left" Scenario.no_fault)))
           (wall (env (Scenario.registered "left" Scenario.no_fault)) k) = true).
  { intros k _. destruct k; reflexivity. }
  exact (completed_flow_records _ _ _ Hrun Hclock).
Defined.

(** ** The Verify button (C4) *)

(** C4, the code at the failing input.  User 555, registered and a member of
    alpha, presses Verify under the prompt (message 7): the prompt is edited
    to the confirmation and the user is upserted, then the handler raises
    [AttributeError]; no feature menu and no other message is sent. *)
Theorem verify_success_sends_no_menu :
  member Scenario.config (env (Scenario.registered "member" Scenario.no_fault)) 555 = true /\
  fst (verify_membership Scenario.config (Scenario.press "verify_membership")
         Scenario.no_args (Scenario.registered "member" Scenario.no_fault)) =
    Raise AttributeError /\
  trace (snd (verify_membership Scenario.config (Scenario.press "verify_membership")
                Scenario.no_args (Scenario.registered "member" Scenario.no_fault))) =
    [EvGetChatMember "@alpha" 555;
     EvEditText 555 7 verified_text;
     EvUpdateOne users_collection 555;
     EvGetChatMember "@alpha" 555] /\
  ~ In (menu_reply 555)
       (trace (snd (verify_membership Scenario.config (Scenario.press "verify_membership")
                      Scenario.no_args (Scenario.registered "member" Scenario.no_fault)))).
Proof.
  split; [reflexivity|]. split; [reflexivity|]. split; [reflexivity|].
  vm_compute. intuition discriminate.
Qed.

(** ** The airtime buttons are not gated (C5) *)

(** A press of one of the four airtime buttons goes straight to
    [handle_airtime_request]. *)
Lemma airtime_press_reaches_handler (CONFIG : Config) (update : Update)
    (context : Context) (q : CallbackQuery) :
  callback_query update = Some q ->
  In (data q) ["airtime_MTN"; "airtime_AIRTEL"; "airtime_GLO"; "airtime_9MOBILE"] ->
  on_callback_query CONFIG update context = handle_airtime_request update context.
Proof.
  intros Hq Hin. unfold on_callback_query. rewrite Hq.
  cbn [In] in Hin.
  destruct Hin as [H|[H|[H|[H|[]]]]]; rewrite <- H; reflexivity.
Qed.

(** C5.  The handler of the airtime buttons never consults the membership
    oracle: run from two worlds that differ only in what the membership
    lookups would answer, it ends the same way, makes the same calls (the
    success summary among them), leaves the same documents in the three
    collections, and no lookup is among its calls. *)
Theorem airtime_request_ignores_membership (update : Update) (context : Context)
    (w : World) (answers1 answers2 : string -> Z -> result string) :
  let go answers :=
    handle_airtime_request update context
      (with_env (with_chat_member answers (env w)) w) in
  fst (go answers1) = fst (go answers2) /\
  trace (snd (go answers1)) = trace (snd (go answers2)) /\
  users (snd (go answers1)) = users (snd (go answers2)) /\
  airtime_requests (snd (go answers1)) = airtime_requests (snd (go answers2)) /\
  transactions (snd (go answers1)) = transactions (snd (go answers2)) /\
  lookups (trace (snd (go answers1))) = lookups (trace w).
Proof.
  destruct w as [e us rs ts tk dr wr nm tr].
  destruct e as [cm se wl rd wf].
  intros go. subst go.
  unfold handle_airtime_request, show_processing_animation.
  rewrite first_frame.
  cbv beta iota delta [with_chat_member send_error wall rand write_fault].
  run.
  cbv beta iota delta [with_chat_member send_error wall rand write_fault fst snd trace
                       users airtime_requests transactions].
  destruct (callback_query update) as [q|];
    [|repeat split; reflexivity].
  destruct (index (split "_" (data q)) 1) as [net|];
    [|repeat split; try reflexivity;
      rewrite ?lookups_app; cbv beta iota delta [lookups filter is_lookup];
      now rewrite ?app_nil_r].
  destruct (wf wr);
    [repeat split; try reflexivity;
     rewrite ?lookups_app; cbv beta iota delta [lookups filter is_lookup];
     now rewrite ?app_nil_r|].
  destruct (wf (S wr));
    repeat split; try reflexivity;
    rewrite ?lookups_app; cbv beta iota delta [lookups filter is_lookup];
    now rewrite ?app_nil_r.
Qed.

(** ** The user upsert (C6) *)

(** C6, the code at the failing input.  User 555 is stored with the join date
    09:00:00 and sends [/start] again at 10:00:00: the collection still has
    one document for 555, and its join date is now 10:00:00. *)
Theorem start_again_resets_join_date :
  users (Scenario.registered "member" Scenario.no_fault) =
    [mk_UserDoc 555 (Some "u555") "Ada" None 0 0 "2024-01-01 09:00:00"] /\
  fst (start Scenario.config Scenario.command Scenario.no_args
         (Scenario.registered "member" Scenario.no_fault)) = Ok tt /\
  users (snd (start Scenario.config Scenario.command Scenario.no_args
                (Scenario.registered "member" Scenario.no_fault))) =
    [mk_UserDoc 555 (Some "u555") "Ada" None 0 0 "2024-01-01 10:00:00"].
Proof. repeat split; reflexivity. Qed.

(** ** Upsert and oracle, in order (C7) *)

(** C7, as the code has it.  The entry command first upserts the User record
    and then, the write having succeeded, queries the membership oracle: the
    upsert is its first call and the only one, and the oracle's lookups
    follow it.  The profile command queries the oracle as its first calls
    and upserts nothing: the stored users are as before and no write is
    attempted. *)
Theorem entry_upserts_then_queries (CONFIG : Config) (update : Update)
    (context : Context) (w : World) (user : User) :
  effective_user update = Some user ->
  let oracle := oracle_trace (env w) (id user) (required_channels CONFIG) in
  (exists r w' tail,
     start CONFIG update context w = (r, w') /\
     trace w' = (trace w ++ EvUpdateOne users_collection (id user) :: tail)%list /\
     upserts tail = [] /\
     if write_fault (env w) (writes w) then r = Raise PyMongoError /\ tail = []
     else exists rest, tail = (oracle ++ rest)%list /\ lookups rest = []) /\
  (exists r w' rest,
     profile CONFIG update context w = (r, w') /\
     trace w' = (trace w ++ oracle ++ rest)%list /\
     lookups rest = [] /\
     upserts (oracle ++ rest) = [] /\
     users w' = users w /\ writes w' = writes w).
Proof.
  intros Hu oracle.
  destruct w as [e us rs ts tk dr wr nm tr].
  cbn [env writes users trace] in *.
  unfold effective_user in Hu.
  destruct (message update) as [m|] eqn:Hm;
    [|destruct (callback_query update) as [q|] eqn:Hq; [|discriminate Hu]];
    inversion Hu; subst user; clear Hu.
  - split.
    + run. rewrite Hm. run. destruct (write_fault e wr).
      * eexists _, _, _. split; [reflexivity|]. split; [reflexivity|]. now split.
      * rewrite is_user_member_run. run. fold oracle.
        destruct (member CONFIG e (id (from_user m))); run;
          [|destruct (join_buttons CONFIG); run];
          rewrite <- ?app_assoc;
          (eexists _, _, _; split; [reflexivity|]; split; [reflexivity|]);
          after_oracle oracle.
    + run. rewrite Hm. run. rewrite is_user_member_run. run. fold oracle.
      destruct (member CONFIG e (id (from_user m))); run;
        [destruct (find (fun d => user_id d =? id (from_user m)) us); run
        |destruct (join_buttons CONFIG); run];
        rewrite <- ?app_assoc; pad oracle;
        (eexists _, _, _; split; [reflexivity|]; split; [reflexivity|]);
        after_oracle oracle.
  - split.
    + run. rewrite Hm, Hq. run. destruct (write_fault e wr).
      * eexists _, _, _. split; [reflexivity|]. split; [reflexivity|]. now split.
      * rewrite is_user_member_run. run. fold oracle.
        destruct (member CONFIG e (id (cq_from_user q))); run;
          [|destruct (join_buttons CONFIG); run];
          rewrite <- ?app_assoc;
          (eexists _, _, _; split; [reflexivity|]; split; [reflexivity|]);
          after_oracle oracle.
    + run. rewrite Hm, Hq. run. rewrite is_user_member_run. run. fold oracle.
      destruct (member CONFIG e (id (cq_from_user q))); run;
        [|destruct (join_buttons CONFIG); run];
        rewrite <- ?app_assoc; pad oracle;
        (eexists _, _, _; split; [reflexivity|]; split; [reflexivity|]);
        after_oracle oracle.
Qed.

Lemma entry_upserts_then_queries_witness :
  effective_user Scenario.command = Some Scenario.user555 /\
  (exists r w' tail,
     start Scenario.config Scenario.command Scenario.no_args
           (Scenario.fresh "member" Scenario.no_fault) = (r, w') /\
     trace w' = EvUpdateOne users_collection 555 :: tail /\
     upserts tail = [] /\
     exists rest, tail = EvGetChatMember "@alpha" 555 :: rest /\ lookups rest = []) /\
  (exists r w' rest,
     profile Scenario.config Scenario.command Scenario.no_args
             (Scenario.fresh "member" Scenario.no_fault) = (r, w') /\
     trace w' = EvGetChatMember "@alpha" 555 :: rest /\
     lookups rest = [] /\
     upserts (EvGetChatMember "@alpha" 555 :: rest) = [] /\
     users w' = [] /\ writes w' = 0%nat).
Proof.
  split; [reflexivity|].
  exact (entry_upserts_then_queries Scenario.config Scenario.command
           Scenario.no_args (Scenario.fresh "member" Scenario.no_fault)
           (user := Scenario.user555) eq_refl).
Defined.

(** C7, as stated, fails on the profile command: for the unregistered user
    555, not a member of alpha, the first call of [/profile] is the
    membership lookup, no upsert is among its calls, and the user is not
    stored afterwards. *)
Lemma profile_queries_without_upsert :
  trace (snd (profile Scenario.config Scenario.command Scenario.no_args
                (Scenario.fresh "left" Scenario.no_fault))) =
    [EvGetChatMember "@alpha" 555; prompt_reply 555 Scenario.join_alpha] /\
  upserts (trace (snd (profile Scenario.config Scenario.command Scenario.no_args
                         (Scenario.fresh "left" Scenario.no_fault)))) = [] /\
  users (snd (profile Scenario.config Scenario.command Scenario.no_args
                (Scenario.fresh "left" Scenario.no_fault))) = [].
Proof. repeat split; reflexivity. Qed.

(** ** Admin commands (C8) *)

(** C8.  For a caller who is not the configured admin, [/stats] and
    [/broadcast] return after one call, the reply that denies the command:
    no count is read from the store, no message is sent to any user, and the
    stored documents and the number of writes are as before. *)
Theorem admin_commands_deny_others (CONFIG : Config) (update : Update)
    (context : Context) (w : World) (m : Message) :
  message update = Some m ->
  id (from_user m) <> admin_id CONFIG ->
  (exists w',
     stats CONFIG update context w = (Ok tt, w') /\
     trace w' = (trace w ++ [EvReplyText (chat_id m) stats_denied None None])%list /\
     users w' = users w /\ airtime_requests w' = airtime_requests w /\
     transactions w' = transactions w /\ writes w' = writes w) /\
  (exists w',
     broadcast CONFIG update context w = (Ok tt, w') /\
     trace w' = (trace w ++ [EvReplyText (chat_id m) broadcast_denied None None])%list /\
     users w' = users w /\ airtime_requests w' = airtime_requests w /\
     transactions w' = transactions w /\ writes w' = writes w).
Proof.
  intros Hm Hne. apply Z.eqb_neq in Hne.
  destruct w as [e us rs ts tk dr wr nm tr].
  split; run; rewrite Hm; run; rewrite Hne; run;
    eexists; repeat split; reflexivity.
Qed.

Lemma admin_commands_deny_others_witness :
  message Scenario.command = Some (mk_Message 555 1 Scenario.user555) /\
  555 <> admin_id Scenario.config /\
  (exists w',
     stats Scenario.config Scenario.command Scenario.no_args
           (Scenario.registered "member" Scenario.no_fault) = (Ok tt, w') /\
     trace w' = [EvReplyText 555 stats_denied None None] /\
     users w' = [Scenario.doc555] /\ airtime_requests w' = [] /\
     transactions w' = [] /\ writes w' = 0%nat) /\
  (exists w',
     broadcast Scenario.config Scenario.command (mk_Context ["hello"])
               (Scenario.registered "member" Scenario.no_fault) = (Ok tt, w') /\
     trace w' = [EvReplyText 555 broadcast_denied None None] /\
     users w' = [Scenario.doc555] /\ airtime_requests w' = [] /\
     transactions w' = [] /\ writes w' = 0%nat).
Proof.
  assert (Hne : 555 <> admin_id Scenario.config) by discriminate.
  split; [reflexivity|]. split; [exact Hne|].
  destruct (admin_commands_deny_others Scenario.config Scenario.command
              Scenario.no_args (Scenario.registered "member" Scenario.no_fault)
              (m := mk_Message 555 1 Scenario.user555) eq_refl Hne) as [Hs _].
  destruct (admin_commands_deny_others Scenario.config Scenario.command
              (mk_Context ["hello"]) (Scenario.registered "member" Scenario.no_fault)
              (m := mk_Message 555 1 Scenario.user555) eq_refl Hne) as [_ Hb].
  split; [exact Hs | exact Hb].
Defined.

(** ** Broadcast (C9) *)

(** C9.  For the admin and a non-empty message, with [N] reachable and [M]
    unreachable users stored: [broadcast] returns normally; it attempts one
    delivery of the message per stored user, in the order of the store, that
    is [N + M] attempts, a failed one not stopping the next; and its one
    reply to the admin reports [N], the number of deliveries that succeeded,
    and nothing about the failures. *)
Theorem broadcast_counts (CONFIG : Config) (update : Update) (context : Context)
    (w : World) (m : Message) :
  message update = Some m ->
  id (from_user m) = admin_id CONFIG ->
  args context <> [] ->
  let text := String.concat " " (args context) in
  let N := length (filter (reachable (env w)) (users w)) in
  let M := length (filter (fun user => negb (reachable (env w) user)) (users w)) in
  exists (evs : list Event) (w' : World),
    broadcast CONFIG update context w = (Ok tt, w') /\
    trace w' = (trace w ++ evs)%list /\
    deliveries evs = map (fun user => EvSendMessage (user_id user) text) (users w) /\
    length (deliveries evs) = (N + M)%nat /\
    replies evs = [EvReplyText (chat_id m) (broadcast_report N) None None] /\
    users w' = users w.
Proof.
  intros Hm Hadmin Hargs text N M. apply Z.eqb_eq in Hadmin.
  destruct w as [e us rs ts tk dr wr nm tr]. cbn [env users trace] in *.
  run. rewrite Hm. run. rewrite Hadmin. run.
  destruct (args context) as [|a rest]; [congruence|].
  fold text. rewrite broadcast_loop_run. run. fold N.
  exists (EvFind users_collection :: broadcast_trace e text us ++
          [EvReplyText (chat_id m) (broadcast_report N) None None])%list.
  eexists. split; [reflexivity|].
  assert (Hd : deliveries (EvFind users_collection :: broadcast_trace e text us ++
                 [EvReplyText (chat_id m) (broadcast_report N) None None]) =
               map (fun user => EvSendMessage (user_id user) text) us).
  { change (deliveries (broadcast_trace e text us ++
              [EvReplyText (chat_id m) (broadcast_report N) None None]) =
            map (fun user => EvSendMessage (user_id user) text) us).
    unfold deliveries at 1. rewrite filter_app. fold (deliveries (broadcast_trace e text us)).
    rewrite deliveries_broadcast_trace. cbn [filter is_send]. apply app_nil_r. }
  split; [now rewrite <- !app_assoc|].
  split; [exact Hd|].
  split; [rewrite Hd, length_map; unfold N, M; now rewrite filter_split_length|].
  split; [|reflexivity].
  change (replies (broadcast_trace e text us ++
            [EvReplyText (chat_id m) (broadcast_report N) None None]) =
          [EvReplyText (chat_id m) (broadcast_report N) None None]).
  now rewrite replies_app, replies_broadcast_trace.
Qed.

Lemma broadcast_counts_witness :
  message Scenario.admin_command = Some (mk_Message 1 2 Scenario.admin) /\
  1 = admin_id Scenario.config /\
  ["hello"; "all"] <> [] /\
  exists (evs : list Event) (w' : World),
    broadcast Scenario.config Scenario.admin_command (mk_Context ["hello"; "all"])
              Scenario.crowd = (Ok tt, w') /\
    trace w' = evs /\
    deliveries evs = [EvSendMessage 555 "hello all"; EvSendMessage 777 "hello all";
                      EvSendMessage 888 "hello all"] /\
    length (deliveries evs) = (2 + 1)%nat /\
    replies evs = [EvReplyText 1 "✅ Broadcast sent to 2 users." None None] /\
    users w' = users Scenario.crowd.
Proof.
  assert (Hargs : ["hello"; "all"] <> []) by discriminate.
  split; [reflexivity|]. split; [reflexivity|]. split; [exact Hargs|].
  exact (broadcast_counts Scenario.config Scenario.admin_command
           (mk_Context ["hello"; "all"]) Scenario.crowd
           (m := mk_Message 1 2 Scenario.admin) eq_refl eq_refl Hargs).
Defined.

(** ** A write that fails (C10) *)

(** C10, as the code has it.  When the AirtimeRequest insert or the
    Transaction insert raises, the handler stops with that exception: it
    does not return normally, and its calls are the progress calls followed
    by the writes attempted, the one that raised being the last; no success
    summary is among them and nothing is sent to the user after the failure
    (the progress message stays).  A request inserted before a failing
    transaction insert stays stored. *)
Theorem failed_write_stops_flow (update : Update) (context : Context) (w : World)
    (q : CallbackQuery) (net : string) :
  callback_query update = Some q ->
  index (split "_" (data q)) 1 = Ok net ->
  (write_fault (env w) (writes w) = true \/
   write_fault (env w) (S (writes w)) = true) ->
  let chat := chat_id (cq_message q) in
  exists (w' : World) (attempted : list Event),
    handle_airtime_request update context w = (Raise PyMongoError, w') /\
    trace w' = (trace w ++ progress_calls chat (next_message_id w) ++ attempted)%list /\
    (forall amount, ~ In (summary_reply chat net amount)
                         (progress_calls chat (next_message_id w) ++ attempted)) /\
    transactions w' = transactions w /\
    if write_fault (env w) (writes w) then
      attempted = [EvInsertOne airtime_requests_collection] /\
      airtime_requests w' = airtime_requests w
    else
      attempted = [EvInsertOne airtime_requests_collection;
                   EvInsertOne transactions_collection] /\
      exists r, airtime_requests w' = (airtime_requests w ++ [r])%list.
Proof.
  intros Hq Hnet Hfault chat.
  destruct w as [e us rs ts tk dr wr nm tr].
  cbv beta iota delta [env writes trace next_message_id transactions airtime_requests] in *.
  unfold handle_airtime_request, show_processing_animation.
  rewrite first_frame. run. rewrite Hq. run. rewrite Hnet. run.
  rewrite <- ?app_assoc.
  destruct (write_fault e wr) eqn:H1.
  - eexists _, [EvInsertOne airtime_requests_collection].
    split; [reflexivity|]. split; [reflexivity|].
    split; [intros amount; now apply no_summary_in_progress|].
    split; [reflexivity|]. now split.
  - destruct Hfault as [Hfault|Hfault]; [discriminate|]. rewrite Hfault.
    rewrite <- ?app_assoc.
    eexists _, [EvInsertOne airtime_requests_collection;
                EvInsertOne transactions_collection].
    split; [reflexivity|]. split; [reflexivity|].
    split; [intros amount; now apply no_summary_in_progress|].
    split; [reflexivity|]. split; [reflexivity|]. eexists. reflexivity.
Qed.

Lemma failed_write_stops_flow_witness :
  callback_query (Scenario.press "airtime_GLO") =
    Some (mk_CallbackQuery Scenario.user555 "airtime_GLO"
                           (mk_Message 555 7 Scenario.user555)) /\
  index (split "_" "airtime_GLO") 1 = Ok "GLO" /\
  exists (w' : World) (attempted : list Event),
    handle_airtime_request (Scenario.press "airtime_GLO") Scenario.no_args
      (Scenario.registered "member" (Scenario.fault_at 1)) = (Raise PyMongoError, w') /\
    trace w' = (progress_calls 555 100 ++ attempted)%list /\
    (forall amount, ~ In (summary_reply 555 "GLO" amount)
                         (progress_calls 555 100 ++ attempted)) /\
    transactions w' = [] /\
    attempted = [EvInsertOne airtime_requests_collection;
                 EvInsertOne transactions_collection] /\
    exists r, airtime_requests w' = [r].
Proof.
  split; [reflexivity|]. split; [reflexivity|].
  exact (failed_write_stops_flow (Scenario.press "airtime_GLO") Scenario.no_args
           (Scenario.registered "member" (Scenario.fault_at 1))
           (q := mk_CallbackQuery Scenario.user555 "airtime_GLO"
                                  (mk_Message 555 7 Scenario.user555))
           (net := "GLO") eq_refl eq_refl (or_intror eq_refl)).
Defined.

(** C10, as stated, fails in its last part: when the AirtimeRequest insert
    raises for the press of user 555, the handler stops with the exception
    of the store, the insert is its last call, and nothing is shown to the
    user after it: no failure is surfaced. *)
Lemma failed_insert_shows_nothing :
  fst (handle_airtime_request (Scenario.press "airtime_MTN") Scenario.no_args
         (Scenario.registered "member" (Scenario.fault_at 0))) = Raise PyMongoError /\
  trace (snd (handle_airtime_request (Scenario.press "airtime_MTN") Scenario.no_args
                (Scenario.registered "member" (Scenario.fault_at 0)))) =
    (progress_calls 555 100 ++ [EvInsertOne airtime_requests_collection])%list /\
  filter shown_to_user
    (after_insert
       (trace (snd (handle_airtime_request (Scenario.press "airtime_MTN")
                      Scenario.no_args
                      (Scenario.registered "member" (Scenario.fault_at 0)))))) = [].
Proof. repeat split; reflexivity. Qed.

(** * Further properties *)

(** ** The connection string *)

Lemma startswith_app (s t p : string) :
  startswith s p = true -> startswith (s ++ t) p = true.
Proof.
  revert s; induction p as [|a p IH]; intros s H; [reflexivity|].
  destruct s as [|b s]; [discriminate|].
  cbn [startswith append] in *. apply andb_true_iff in H. destruct H as [Hab Hs].
  now rewrite Hab, (IH _ Hs).
Qed.

Lemma startswith_self (p t : string) : startswith (p ++ t) p = true.
Proof.
  induction p as [|a p IH]; [reflexivity|].
  cbn [startswith append]. now rewrite Ascii.eqb_refl, IH.
Qed.

Lemma startswith_refl (p : string) : startswith p p = true.
Proof.
  induction p as [|a p IH]; [reflexivity|].
  cbn [startswith]. now rewrite Ascii.eqb_refl, IH.
Qed.

Lemma contains_app_l (needle s t : string) :
  contains needle s = true -> contains needle (s ++ t) = true.
Proof.
  induction s as [|b s IH]; intros H.
  - cbn [contains] in H. rewrite orb_false_r in H.
    destruct needle; [|discriminate H]. now destruct t.
  - cbn [contains append] in *. apply orb_true_iff in H. apply orb_true_iff.
    destruct H as [H|H].
    + left. exact (startswith_app (String b s) t needle H).
    + right. now apply IH.
Qed.

Lemma contains_app_r (needle s t : string) :
  contains needle t = true -> contains needle (s ++ t) = true.
Proof.
  intros H. induction s as [|b s IH]; [exact H|].
  cbn [contains append]. rewrite IH. apply orb_true_r.
Qed.

Lemma lower_app (s t : string) : lower (s ++ t) = lower s ++ lower t.
Proof. induction s as [|b s IH]; [reflexivity|]. cbn [lower append]. now rewrite IH. Qed.

Lemma occurrences_app (c : ascii) (s t : string) :
  occurrences c (s ++ t) = (occurrences c s + occurrences c t)%nat.
Proof.
  induction s as [|b s IH]; [reflexivity|].
  cbn [occurrences append]. rewrite IH. lia.
Qed.

Lemma contains_char_none (c : ascii) (s : string) :
  contains (String c EmptyString) s = false -> occurrences c s = 0%nat.
Proof.
  induction s as [|b s IH]; [reflexivity|].
  cbn [contains startswith occurrences]. rewrite andb_true_r.
  intros H. apply orb_false_iff in H. destruct H as [Hcb Hs].
  rewrite Ascii.eqb_sym, Hcb. now rewrite (IH Hs).
Qed.

Lemma add_retry_writes_has (u : string) :
  contains "retryWrites" (add_retry_writes u) = true.
Proof.
  unfold add_retry_writes.
  destruct (contains "retryWrites" u) eqn:H; cbn [negb]; [exact H|].
  destruct (contains "?" u); now apply contains_app_r.
Qed.

Lemma add_ssl_has (u : string) : contains "ssl=true" (lower (add_ssl u)) = true.
Proof.
  unfold add_ssl.
  destruct (contains "ssl=true" (lower u)) eqn:H; cbn [negb]; [exact H|].
  destruct (contains "?" u); rewrite lower_app; now apply contains_app_r.
Qed.

Lemma add_ssl_keeps (needle u : string) :
  contains needle u = true -> contains needle (add_ssl u) = true.
Proof.
  intros H. unfold add_ssl.
  destruct (negb (contains "ssl=true" (lower u))); [|exact H].
  destruct (contains "?" u); now apply contains_app_l.
Qed.

Lemma add_retry_writes_prefix (u : string) : startswith (add_retry_writes u) u = true.
Proof.
  unfold add_retry_writes.
  destruct (negb (contains "retryWrites" u)); [destruct (contains "?" u)|];
    first [apply startswith_self | apply startswith_refl].
Qed.

Lemma add_ssl_prefix (u : string) : startswith (add_ssl u) u = true.
Proof.
  unfold add_ssl.
  destruct (negb (contains "ssl=true" (lower u))); [destruct (contains "?" u)|];
    first [apply startswith_self | apply startswith_refl].
Qed.

Lemma startswith_trans (s t p : string) :
  startswith s t = true -> startswith t p = true -> startswith s p = true.
Proof.
  revert s t; induction p as [|a p IH]; intros s t Hst Htp; [reflexivity|].
  destruct t as [|b t]; [discriminate|]. destruct s as [|c s]; [discriminate|].
  cbn [startswith] in *.
  apply andb_true_iff in Hst. destruct Hst as [Hbc Hst].
  apply andb_true_iff in Htp. destruct Htp as [Hab Htp].
  apply Ascii.eqb_eq in Hbc. apply Ascii.eqb_eq in Hab. subst.
  now rewrite Ascii.eqb_refl, (IH _ _ Hst Htp).
Qed.

(** X1.  The string handed to [MongoClient] keeps the given URI as its
    prefix, contains [retryWrites] and, in lower case, [ssl=true]; given
    back as the variable it comes out unchanged. *)
Theorem connection_uri_stable (mongodb_uri out : string) :
  connection_uri (Some mongodb_uri) = Some out ->
  startswith out mongodb_uri = true /\
  contains "retryWrites" out = true /\
  contains "ssl=true" (lower out) = true /\
  connection_uri (Some out) = Some out.
Proof.
  unfold connection_uri. destruct mongodb_uri as [|c u]; [discriminate|].
  intros H. injection H as <-. set (uri := String c u).
  assert (Hp : startswith (add_ssl (add_retry_writes uri)) uri = true).
  { eapply startswith_trans; [apply add_ssl_prefix | apply add_retry_writes_prefix]. }
  assert (Hr : contains "retryWrites" (add_ssl (add_retry_writes uri)) = true).
  { apply add_ssl_keeps, add_retry_writes_has. }
  assert (Hs : contains "ssl=true" (lower (add_ssl (add_retry_writes uri))) = true).
  { apply add_ssl_has. }
  repeat split; try assumption.
  destruct (add_ssl (add_retry_writes uri)) as [|d rest]; [discriminate Hp|].
  cbv beta iota. f_equal.
  unfold add_retry_writes. rewrite Hr. cbn [negb].
  unfold add_ssl. rewrite Hs. reflexivity.
Qed.

Lemma connection_uri_stable_witness :
  connection_uri (Some "mongodb+srv://u:p@host/db") =
    Some "mongodb+srv://u:p@host/db?retryWrites=true&w=majority&ssl=true" /\
  startswith "mongodb+srv://u:p@host/db?retryWrites=true&w=majority&ssl=true"
             "mongodb+srv://u:p@host/db" = true /\
  contains "retryWrites"
           "mongodb+srv://u:p@host/db?retryWrites=true&w=majority&ssl=true" = true /\
  contains "ssl=true"
           (lower "mongodb+srv://u:p@host/db?retryWrites=true&w=majority&ssl=true") = true /\
  connection_uri (Some "mongodb+srv://u:p@host/db?retryWrites=true&w=majority&ssl=true") =
    Some "mongodb+srv://u:p@host/db?retryWrites=true&w=majority&ssl=true".
Proof.
  split; [reflexivity|].
  exact (@connection_uri_stable "mongodb+srv://u:p@host/db" _ eq_refl).
Defined.

(** X2.  The options are appended as a query string: a URI that has a
    question mark gets none more, and one that has none gets at most one. *)
Theorem connection_uri_question_marks (mongodb_uri out : string) :
  connection_uri (Some mongodb_uri) = Some out ->
  if contains "?" mongodb_uri
  then occurrences "?" out = occurrences "?" mongodb_uri
  else (occurrences "?" out <= 1)%nat.
Proof.
  unfold connection_uri. destruct mongodb_uri as [|c u]; [discriminate|].
  intros H. injection H as <-. set (uri := String c u).
  unfold add_ssl, add_retry_writes.
  destruct (contains "?" uri) eqn:Hq.
  - destruct (negb (contains "retryWrites" uri)).
    + rewrite (contains_app_l _ _ _ Hq).
      destruct (negb (contains "ssl=true" (lower (uri ++ "&retryWrites=true&w=majority"))));
        rewrite ?occurrences_app; cbn [occurrences Ascii.eqb Bool.eqb]; lia.
    + rewrite Hq.
      destruct (negb (contains "ssl=true" (lower uri)));
        rewrite ?occurrences_app; cbn [occurrences Ascii.eqb Bool.eqb]; lia.
  - pose proof (contains_char_none _ _ Hq) as H0.
    destruct (negb (contains "retryWrites" uri)).
    + rewrite (contains_app_r "?" uri "?retryWrites=true&w=majority" eq_refl).
      destruct (negb (contains "ssl=true" (lower (uri ++ "?retryWrites=true&w=majority"))));
        rewrite ?occurrences_app, H0; cbn [occurrences Ascii.eqb Bool.eqb]; lia.
    + rewrite Hq.
      destruct (negb (contains "ssl=true" (lower uri)));
        rewrite ?occurrences_app, H0; cbn [occurrences Ascii.eqb Bool.eqb]; lia.
Qed.

Lemma connection_uri_question_marks_witness :
  connection_uri (Some "mongodb://host/db?w=1") =
    Some "mongodb://host/db?w=1&retryWrites=true&w=majority&ssl=true" /\
  occurrences "?" "mongodb://host/db?w=1&retryWrites=true&w=majority&ssl=true" =
  occurrences "?" "mongodb://host/db?w=1".
Proof.
  split; [reflexivity|].
  exact (@connection_uri_question_marks "mongodb://host/db?w=1" _ eq_refl).
Defined.

(** ** [CONFIG] from the environment *)

Lemma split_length (sep : ascii) (s : string) :
  length (split sep s) = S (occurrences sep s).
Proof.
  induction s as [|c s IH]; [reflexivity|].
  cbn [split occurrences]. destruct (Ascii.eqb c sep).
  - cbn [length]. now rewrite IH.
  - destruct (split sep s) as [|p ps]; [discriminate IH|].
    cbn [length] in *. exact IH.
Qed.

Lemma join_rows_length (channels links : list string) :
  (length channels <= length links)%nat ->
  length (join_rows channels links) = length channels.
Proof.
  intros H. unfold join_rows. rewrite length_map, length_combine. lia.
Qed.

(** X3.  When [CHANNEL_LINKS] has at least as many commas as
    [REQUIRED_CHANNELS] (each unset variable counting as its default), the
    prompt is built: one join row per channel, one more than the commas of
    [REQUIRED_CHANNELS], and then the Verify row. *)
Theorem loaded_config_builds_prompt (TELEGRAM_BOT_TOKEN : option string)
    (admin : Z) (REQUIRED_CHANNELS CHANNEL_LINKS : option string) :
  let CONFIG := load_config TELEGRAM_BOT_TOKEN admin REQUIRED_CHANNELS CHANNEL_LINKS in
  (occurrences "," (getenv REQUIRED_CHANNELS "megahubbots") <=
   occurrences "," (getenv CHANNEL_LINKS "https://t.me/megahubbots"))%nat ->
  join_buttons CONFIG =
    Ok (join_rows (required_channels CONFIG) (channel_links CONFIG) ++
        [[verify_button]])%list /\
  length (join_rows (required_channels CONFIG) (channel_links CONFIG)) =
    S (occurrences "," (getenv REQUIRED_CHANNELS "megahubbots")).
Proof.
  intros CONFIG H.
  assert (Hle : (length (required_channels CONFIG) <= length (channel_links CONFIG))%nat).
  { unfold CONFIG, load_config. cbn [required_channels channel_links].
    rewrite !split_length. lia. }
  split; [now apply join_buttons_shape|].
  rewrite (join_rows_length _ _ Hle).
  unfold CONFIG, load_config. cbn [required_channels]. apply split_length.
Qed.

Lemma loaded_config_builds_prompt_witness :
  (occurrences "," (getenv (Some "alpha,beta") "megahubbots") <=
   occurrences "," (getenv (Some "https://t.me/alpha,https://t.me/beta,https://t.me/more")
                           "https://t.me/megahubbots"))%nat /\
  join_buttons (load_config None 1 (Some "alpha,beta")
                  (Some "https://t.me/alpha,https://t.me/beta,https://t.me/more")) =
    Ok [ [mk_Button "Join alpha" (url "https://t.me/alpha")];
         [mk_Button "Join beta" (url "https://t.me/beta")];
         [verify_button] ] /\
  length (join_rows ["alpha"; "beta"]
            ["https://t.me/alpha"; "https://t.me/beta"; "https://t.me/more"]) = 2%nat.
Proof.
  assert (H : (occurrences "," (getenv (Some "alpha,beta") "megahubbots") <=
               occurrences "," (getenv (Some "https://t.me/alpha,https://t.me/beta,https://t.me/more")
                                       "https://t.me/megahubbots"))%nat)
    by (cbv; repeat constructor).
  split; [exact H|].
  exact (loaded_config_builds_prompt None 1 (Some "alpha,beta")
           (Some "https://t.me/alpha,https://t.me/beta,https://t.me/more") H).
Defined.

(** X4.  Whatever [REQUIRED_CHANNELS] holds, the loaded list of channels has
    a first element, and every run of [is_user_member] starts with the
    lookup of that channel: an empty variable does not switch the gate off,
    it asks for the channel with the empty name. *)
Theorem loaded_gate_always_looks_up (TELEGRAM_BOT_TOKEN : option string)
    (admin : Z) (REQUIRED_CHANNELS CHANNEL_LINKS : option string)
    (user_id : Z) (w : World) :
  let CONFIG := load_config TELEGRAM_BOT_TOKEN admin REQUIRED_CHANNELS CHANNEL_LINKS in
  exists (first : string) (rest : list string) (b : bool) (evs : list Event),
    required_channels CONFIG = first :: rest /\
    is_user_member CONFIG user_id w =
      (Ok b, advance (EvGetChatMember ("@" ++ first) user_id :: evs) w) /\
    required_channels (load_config TELEGRAM_BOT_TOKEN admin (Some "") CHANNEL_LINKS) = [""].
Proof.
  intros CONFIG. rewrite is_user_member_run.
  pose proof (split_length "," (getenv REQUIRED_CHANNELS "megahubbots")) as Hlen.
  change (split "," (getenv REQUIRED_CHANNELS "megahubbots"))
    with (required_channels CONFIG) in Hlen.
  destruct (required_channels CONFIG) as [|first rest]; [discriminate Hlen|].
  exists first, rest. cbn [oracle_trace].
  destruct (chat_member (env w) ("@" ++ first) user_id) as [status|x];
    eexists _, _; repeat split; reflexivity.
Qed.

(** ** What a handler may do to the store *)

Lemma quiet_refl (w : World) : quiet w w.
Proof. now repeat split. Qed.

Lemma quiet_trans (a b c : World) : quiet a b -> quiet b c -> quiet a c.
Proof.
  intros (e1 & u1 & r1 & t1 & n1) (e2 & u2 & r2 & t2 & n2).
  repeat split; congruence.
Qed.

#[local] Instance quiet_calm : Calm quiet.
Proof. constructor; [apply quiet_refl | apply quiet_trans | trivial]. Qed.

Lemma extends_refl {A} (l : list A) : extends l l.
Proof. exists []. now rewrite app_nil_r. Qed.

Lemma extends_trans {A} (a b c : list A) : extends a b -> extends b c -> extends a c.
Proof. intros [x ->] [y ->]. exists (x ++ y)%list. now rewrite app_assoc. Qed.

#[local] Instance grows_calm : Calm grows.
Proof.
  constructor.
  - intros w. constructor; [reflexivity | apply extends_refl | apply extends_refl
                           | apply incl_refl | trivial].
  - intros a b c [e1 r1 t1 i1 u1] [e2 r2 t2 i2 u2]. constructor.
    + now rewrite e2.
    + eapply extends_trans; eassumption.
    + eapply extends_trans; eassumption.
    + eapply incl_tran; eassumption.
    + auto.
  - intros w w' (He & Hu & Hr & Ht & _).
    constructor; unfold user_ids; rewrite ?Hu, ?Hr, ?Ht;
      [exact He | apply extends_refl | apply extends_refl | apply incl_refl | trivial].
Qed.

Section Kept.

Context {R : World -> World -> Prop} {HR : Calm R}.

Lemma keeps_ret {A} (a : A) : keeps R (ret a).
Proof. intros w. apply calm_refl. Qed.

Lemma keeps_raise {A} (e : exn) : keeps R (@raise A e).
Proof. intros w. apply calm_refl. Qed.

Lemma keeps_lift {A} (r : result A) : keeps R (lift r).
Proof. intros w. apply calm_refl. Qed.

Lemma keeps_read {A} (f : World -> result A) : keeps R (fun w => (f w, w)).
Proof. intros w. apply calm_refl. Qed.

Lemma keeps_bind {A B} (m : M A) (k : A -> M B) :
  keeps R m -> (forall a, keeps R (k a)) -> keeps R (bind m k).
Proof.
  intros Hm Hk w. unfold bind. specialize (Hm w).
  destruct (m w) as [[a|e] w1]; cbn [snd] in *; [|exact Hm].
  eapply calm_trans; [exact Hm | apply Hk].
Qed.

Lemma keeps_try_except {A} (m : M A) (h : exn -> M A) :
  keeps R m -> (forall e, keeps R (h e)) -> keeps R (try_except m h).
Proof.
  intros Hm Hh w. unfold try_except. specialize (Hm w).
  destruct (m w) as [[a|e] w1]; cbn [snd] in *; [exact Hm|].
  eapply calm_trans; [exact Hm | apply Hh].
Qed.

Lemma keeps_emit (e : Event) : keeps R (emit e).
Proof. intros w. apply calm_quiet. now repeat split. Qed.

Lemma keeps_datetime_now : keeps R datetime_now.
Proof. intros w. apply calm_refl. Qed.

Lemma keeps_random_randint (a b : Z) : keeps R (random_randint a b).
Proof. intros w. apply calm_quiet. now repeat split. Qed.

Lemma keeps_get_chat_member (chat : string) (user : Z) :
  keeps R (get_chat_member chat user).
Proof.
  unfold get_chat_member. apply keeps_bind; [apply keeps_emit|intros ?].
  apply keeps_read.
Qed.

Lemma keeps_send_message (chat : Z) (text : string) : keeps R (send_message chat text).
Proof.
  unfold send_message. apply keeps_bind; [apply keeps_emit|intros ?].
  intros w. destruct (send_error (env w) chat); apply calm_refl.
Qed.

Lemma keeps_reply_text (to : Message) (text : string)
    (markup : option InlineKeyboardMarkup) (mode : option string) :
  keeps R (reply_text to text markup mode).
Proof.
  unfold reply_text. apply keeps_bind; [apply keeps_emit|intros ?].
  intros w. apply calm_quiet. now repeat split.
Qed.

Lemma keeps_message_of (update : Update) : keeps R (message_of update).
Proof.
  unfold message_of. destruct (message update); [apply keeps_ret | apply keeps_raise].
Qed.

Lemma keeps_effective_user_of (update : Update) : keeps R (effective_user_of update).
Proof.
  unfold effective_user_of.
  destruct (effective_user update); [apply keeps_ret | apply keeps_raise].
Qed.

Lemma keeps_callback_query_of (update : Update) : keeps R (callback_query_of update).
Proof.
  unfold callback_query_of.
  destruct (callback_query update); [apply keeps_ret | apply keeps_raise].
Qed.

(** Splitting a sequence of calls into its calls. *)
Ltac keeps_seq :=
  repeat lazymatch goal with
         | |- keeps _ (bind _ _) => apply keeps_bind; [|intros ?]
         end.

Lemma keeps_get_user_stats (key : Z) : keeps R (get_user_stats key).
Proof.
  unfold get_user_stats, find_one, count_requests.
  keeps_seq;
    first [apply keeps_emit | apply keeps_read | apply keeps_ret].
Qed.

Lemma keeps_is_user_member (CONFIG : Config) (user_id : Z) :
  keeps R (is_user_member CONFIG user_id).
Proof.
  intros w. rewrite is_user_member_run. apply calm_quiet. now repeat split.
Qed.

Lemma keeps_broadcast_loop (text : string) (recipients : list UserDoc) (success : nat) :
  keeps R (broadcast_loop text recipients success).
Proof.
  intros w. rewrite broadcast_loop_run. apply calm_quiet. now repeat split.
Qed.

Lemma keeps_animate (sent : SentMessage) (frames : list string) :
  keeps R (animate sent frames).
Proof.
  induction frames as [|frame rest IH]; cbn [animate]; [apply keeps_ret|].
  unfold asyncio_sleep, edit_text.
  apply keeps_bind; [apply keeps_emit|intros ?].
  apply keeps_bind; [apply keeps_emit|intros ?]. exact IH.
Qed.

Lemma keeps_show_processing_animation (query : CallbackQuery) :
  keeps R (show_processing_animation query).
Proof.
  unfold show_processing_animation.
  apply keeps_bind; [apply keeps_lift|intros first].
  apply keeps_bind; [apply keeps_reply_text|intros sent].
  apply keeps_bind; [apply keeps_animate|intros ?]. apply keeps_ret.
Qed.

Lemma keeps_ask_user_to_join (CONFIG : Config) (update : Update) :
  keeps R (ask_user_to_join CONFIG update).
Proof.
  unfold ask_user_to_join.
  apply keeps_bind; [apply keeps_lift|intros buttons].
  apply keeps_bind; [apply keeps_message_of|intros m].
  apply keeps_bind; [apply keeps_reply_text|intros ?]. apply keeps_ret.
Qed.

Lemma keeps_profile (CONFIG : Config) (update : Update) (context : Context) :
  keeps R (profile CONFIG update context).
Proof.
  unfold profile.
  apply keeps_bind; [apply keeps_effective_user_of|intros user].
  apply keeps_bind; [apply keeps_is_user_member|intros member].
  destruct (negb member); [apply keeps_ask_user_to_join|].
  apply keeps_bind; [apply keeps_get_user_stats|intros found].
  apply keeps_bind; [apply keeps_message_of|intros m].
  destruct (fst found); [|apply keeps_raise].
  apply keeps_bind; [apply keeps_reply_text|intros ?]. apply keeps_ret.
Qed.

Lemma keeps_stats (CONFIG : Config) (update : Update) (context : Context) :
  keeps R (stats CONFIG update context).
Proof.
  unfold stats, count_users, count_requests.
  apply keeps_bind; [apply keeps_effective_user_of|intros user].
  destruct (negb (id user =? admin_id CONFIG));
    keeps_seq;
    first [apply keeps_emit | apply keeps_read | apply keeps_ret
          | apply keeps_message_of | apply keeps_reply_text].
Qed.

Lemma keeps_broadcast (CONFIG : Config) (update : Update) (context : Context) :
  keeps R (broadcast CONFIG update context).
Proof.
  unfold broadcast, find_users.
  apply keeps_bind; [apply keeps_effective_user_of|intros user].
  destruct (negb (id user =? admin_id CONFIG)); [|destruct (args context); cbv zeta];
    keeps_seq;
    first [apply keeps_emit | apply keeps_read | apply keeps_ret
          | apply keeps_message_of | apply keeps_reply_text
          | apply keeps_broadcast_loop].
Qed.

End Kept.

Lemma update_first_ids (key : Z) (set : UserDoc -> UserDoc) (docs docs' : list UserDoc) :
  (forall d, user_id (set d) = user_id d) ->
  update_first key set docs = Some docs' ->
  map user_id docs' = map user_id docs.
Proof.
  intros Hset. revert docs'. induction docs as [|d rest IH]; intros docs' H; [discriminate|].
  cbn [update_first] in H. destruct (user_id d =? key).
  - injection H as <-. cbn [map]. now rewrite Hset.
  - destruct (update_first key set rest) as [rest'|]; [|discriminate].
    injection H as <-. cbn [map]. now rewrite (IH _ eq_refl).
Qed.

Lemma update_first_none (key : Z) (set : UserDoc -> UserDoc) (docs : list UserDoc) :
  update_first key set docs = None -> ~ In key (map user_id docs).
Proof.
  induction docs as [|d rest IH]; intros H; [intros []|].
  cbn [update_first] in H. destruct (user_id d =? key) eqn:E; [discriminate|].
  apply Z.eqb_neq in E.
  destruct (update_first key set rest); [discriminate|].
  cbn [map In]. intros [Hd|Hin]; [congruence | now apply IH].
Qed.

(** The user ids after an upsert: as before when the key is stored, the key
    added at the end when it is not. *)
Lemma upsert_ids (key : Z) (set : UserDoc -> UserDoc) (docs : list UserDoc) :
  (forall d, user_id (set d) = user_id d) ->
  map user_id (upsert key set docs) = map user_id docs \/
  (~ In key (map user_id docs) /\
   map user_id (upsert key set docs) = (map user_id docs ++ [key])%list).
Proof.
  intros Hset. unfold upsert.
  destruct (update_first key set docs) as [docs'|] eqn:E.
  - left. eapply update_first_ids; eassumption.
  - right. split; [eapply update_first_none; eassumption|].
    rewrite map_app. cbn [map]. now rewrite Hset.
Qed.

Lemma NoDup_snoc {A} (l : list A) (x : A) : NoDup l -> ~ In x l -> NoDup (l ++ [x]).
Proof.
  induction 1 as [|y l Hy Hl IH]; intros Hx; cbn [app].
  - constructor; [intros []|constructor].
  - constructor.
    + intros Hin. apply in_app_or in Hin. destruct Hin as [Hin|[->|[]]].
      * now apply Hy.
      * apply Hx. now left.
    + apply IH. intros Hin. apply Hx. now right.
Qed.

(** A step that leaves the outside and the three collections as they are,
    whatever it counts. *)
Lemma grows_same (w w' : World) :
  env w' = env w -> users w' = users w ->
  airtime_requests w' = airtime_requests w -> transactions w' = transactions w ->
  grows w w'.
Proof.
  intros He Hu Hr Ht. constructor; unfold user_ids; rewrite ?Hu, ?Hr, ?Ht;
    [exact He | apply extends_refl | apply extends_refl | apply incl_refl | trivial].
Qed.

Lemma keeps_db_write (e : Event) (apply : World -> World) :
  (forall w, grows w (apply w)) -> keeps grows (db_write e apply).
Proof.
  intros H w. unfold db_write, bind, emit.
  destruct (write_fault _ _); cbn [snd].
  - now apply grows_same.
  - eapply calm_trans; [|apply H]. now apply grows_same.
Qed.

Lemma keeps_add_user (user : User) : keeps grows (add_user user).
Proof.
  unfold add_user. apply keeps_bind; [apply keeps_datetime_now|intros now].
  apply keeps_db_write. intros w.
  destruct (upsert_ids (id user)
              (fun d => mk_UserDoc (user_id d) (username user) (first_name user)
                                   (last_name user) 0 0 (strftime now))
              (users w) (fun d => eq_refl)) as [Hids|[Hnew Hids]];
    constructor; try reflexivity; try apply extends_refl;
    unfold user_ids, with_users; cbn [users]; rewrite Hids;
    try apply incl_refl; try (apply incl_appl, incl_refl); trivial.
  intros Hu. now apply NoDup_snoc.
Qed.

Lemma keeps_add_airtime_request (user_id : Z) (network phone_number : string)
    (amount : Z) : keeps grows (add_airtime_request user_id network phone_number amount).
Proof.
  unfold add_airtime_request. apply keeps_bind; [apply keeps_datetime_now|intros now].
  apply keeps_db_write. intros w.
  constructor; try reflexivity; try apply extends_refl; try apply incl_refl; trivial.
  eexists. reflexivity.
Qed.

Lemma keeps_add_transaction (user_id : Z) (transaction_type : string) (amount : Z)
    (status : string) : keeps grows (add_transaction user_id transaction_type amount status).
Proof.
  unfold add_transaction. apply keeps_bind; [apply keeps_datetime_now|intros now].
  apply keeps_db_write. intros w.
  constructor; try reflexivity; try apply extends_refl; try apply incl_refl; trivial.
  eexists. reflexivity.
Qed.





Lemma keeps_start (CONFIG : Config) (update : Update) (context : Context) :
  keeps grows (start CONFIG update context).
Proof.
  unfold start.
  apply keeps_bind; [apply keeps_effective_user_of|intros user].
  apply keeps_bind; [apply keeps_add_user|intros ?].
  apply keeps_bind; [apply keeps_is_user_member|intros member].
  destruct (negb member); [apply keeps_ask_user_to_join|].
  apply keeps_bind; [apply keeps_message_of|intros m].
  apply keeps_bind; [apply keeps_reply_text|intros ?]. apply keeps_ret.
Qed.




Lemma keeps_verify_membership (CONFIG : Config) (update : Update) (context : Context) :
  keeps grows (verify_membership CONFIG update context).
Proof.
  unfold verify_membership.
  apply keeps_bind; [apply keeps_callback_query_of|intros query].
  cbv zeta.
  apply keeps_bind; [apply keeps_is_user_member|intros member].
  destruct member.
  - apply keeps_bind; [apply keeps_emit|intros ?]. apply keeps_start.
  - apply keeps_emit.
Qed.


Lemma keeps_handle_airtime_request (update : Update) (context : Context) :
  keeps grows (handle_airtime_request update context).
Proof.
  unfold handle_airtime_request.
  apply keeps_bind; [apply keeps_callback_query_of|intros query].
  apply keeps_bind; [apply keeps_emit|intros ?].
  apply keeps_bind; [apply keeps_show_processing_animation|intros sent].
  apply keeps_bind; [apply keeps_lift|intros net].
  apply keeps_bind; [apply keeps_random_randint|intros draw].
  cbv zeta.
  apply keeps_bind; [apply keeps_add_airtime_request|intros ?].
  apply keeps_bind; [apply keeps_add_transaction|intros ?].
  apply keeps_bind; [apply keeps_emit|intros ?].
  apply keeps_bind; [apply keeps_reply_text|intros ?]. apply keeps_ret.
Qed.

Lemma keeps_on_callback_query (CONFIG : Config) (update : Update) (context : Context) :
  keeps grows (on_callback_query CONFIG update context).
Proof.
  unfold on_callback_query.
  destruct (callback_query update) as [query|]; [|apply keeps_ret].
  repeat match goal with
         | |- keeps grows (if ?b then _ else _) => destruct b
         end;
    first [apply keeps_handle_airtime_request | apply keeps_verify_membership
          | apply keeps_ret].
Qed.

Lemma keeps_handler (CONFIG : Config) (h : Handler) (update : Update)
    (context : Context) : keeps grows (handler CONFIG h update context).
Proof.
  destruct h; cbn [handler];
    [apply keeps_start | apply keeps_profile | apply keeps_stats
    | apply keeps_broadcast | apply keeps_on_callback_query].
Qed.

(** X5.  No handler that [main] registers removes or rewrites a stored
    AirtimeRequest or Transaction: however the handler ends, returning or
    raising, both collections start with what they held before. *)
Theorem requests_and_transactions_append_only (CONFIG : Config) (h : Handler)
    (update : Update) (context : Context) (w : World) :
  let w' := snd (handler CONFIG h update context w) in
  (exists more, airtime_requests w' = (airtime_requests w ++ more)%list) /\
  (exists more, transactions w' = (transactions w ++ more)%list).
Proof.
  destruct (keeps_handler CONFIG h update context w) as [_ Hr Ht _ _].
  split; assumption.
Qed.

(** X6.  No handler that [main] registers removes a user or stores a user id
    twice: every stored id is still stored after the handler, and ids that
    were distinct stay distinct, however the handler ends. *)
Theorem user_ids_stay_distinct (CONFIG : Config) (h : Handler)
    (update : Update) (context : Context) (w : World) :
  NoDup (user_ids w) ->
  let w' := snd (handler CONFIG h update context w) in
  NoDup (user_ids w') /\ incl (user_ids w) (user_ids w').
Proof.
  intros Hu. destruct (keeps_handler CONFIG h update context w) as [_ _ _ Hi Hn].
  split; [now apply Hn | exact Hi].
Qed.

Lemma user_ids_stay_distinct_witness :
  NoDup (user_ids Scenario.crowd) /\
  NoDup (user_ids (snd (handler Scenario.config on_start Scenario.command
                          Scenario.no_args Scenario.crowd))) /\
  incl (user_ids Scenario.crowd)
       (user_ids (snd (handler Scenario.config on_start Scenario.command
                         Scenario.no_args Scenario.crowd))).
Proof.
  assert (H : NoDup (user_ids Scenario.crowd)).
  { unfold user_ids, Scenario.crowd. cbn [users map user_id].
    repeat constructor; cbn [In]; intros H;
      repeat (destruct H as [H|H]; [discriminate H|]); exact H. }
  split; [exact H|].
  exact (user_ids_stay_distinct Scenario.config on_start Scenario.command
           Scenario.no_args Scenario.crowd H).
Defined.

(** X7.  [/profile], [/stats] and [/broadcast] never write to the store:
    whoever calls them and however they end, the three collections and the
    number of writes attempted are as before. *)
Theorem commands_that_only_read (CONFIG : Config) (update : Update)
    (context : Context) (w : World) :
  same_store w (snd (profile CONFIG update context w)) /\
  same_store w (snd (stats CONFIG update context w)) /\
  same_store w (snd (broadcast CONFIG update context w)).
Proof.
  split; [|split].
  - apply (keeps_profile (R := quiet)).
  - apply (keeps_stats (R := quiet)).
  - apply (keeps_broadcast (R := quiet)).
Qed.

(** ** The user upsert and its lookups *)

Lemma find_update_first (key : Z) (set : UserDoc -> UserDoc) (docs docs' : list UserDoc) :
  (forall d, user_id (set d) = user_id d) ->
  update_first key set docs = Some docs' ->
  exists d, find (fun d => user_id d =? key) docs = Some d /\
            find (fun d => user_id d =? key) docs' = Some (set d).
Proof.
  intros Hset. revert docs'. induction docs as [|d rest IH]; intros docs' H; [discriminate|].
  cbn [update_first] in H. destruct (user_id d =? key) eqn:E.
  - injection H as <-. exists d. cbn [find]. now rewrite Hset, E.
  - destruct (update_first key set rest) as [rest'|]; [|discriminate].
    injection H as <-. destruct (IH _ eq_refl) as (d0 & H1 & H2).
    exists d0. cbn [find]. now rewrite E.
Qed.

Lemma find_app_none {A} (p : A -> bool) (l l' : list A) :
  find p l = None -> find p (l ++ l') = find p l'.
Proof.
  induction l as [|x l IH]; [reflexivity|].
  cbn [find app]. destruct (p x); [discriminate|exact IH].
Qed.

Lemma update_first_find_none (key : Z) (set : UserDoc -> UserDoc) (docs : list UserDoc) :
  update_first key set docs = None -> find (fun d => user_id d =? key) docs = None.
Proof.
  induction docs as [|d rest IH]; [reflexivity|].
  cbn [update_first find]. destruct (user_id d =? key); [discriminate|].
  destruct (update_first key set rest); [discriminate|exact IH].
Qed.

(** Looking a key up after its upsert finds the document written. *)
Lemma find_upsert (key : Z) (set : UserDoc -> UserDoc) (docs : list UserDoc) :
  (forall d, user_id (set d) = user_id d) ->
  exists d, user_id d = key /\
            find (fun d => user_id d =? key) (upsert key set docs) = Some (set d).
Proof.
  intros Hset. unfold upsert.
  destruct (update_first key set docs) as [docs'|] eqn:E.
  - destruct (find_update_first _ _ _ Hset E) as (d & H1 & H2).
    exists d. split; [|exact H2].
    apply find_some in H1. now apply Z.eqb_eq.
  - exists (mk_UserDoc key None "" None 0 0 ""). split; [reflexivity|].
    rewrite (find_app_none _ _ _ (update_first_find_none _ _ _ E)).
    cbn [find]. now rewrite Hset, Z.eqb_refl.
Qed.

(** Looking another key up after an upsert finds what it found before. *)
Lemma find_upsert_other (key other : Z) (set : UserDoc -> UserDoc) (docs : list UserDoc) :
  (forall d, user_id (set d) = user_id d) ->
  other <> key ->
  find (fun d => user_id d =? other) (upsert key set docs) =
  find (fun d => user_id d =? other) docs.
Proof.
  intros Hset Hne. unfold upsert.
  destruct (update_first key set docs) as [docs'|] eqn:E.
  - revert docs' E. induction docs as [|d rest IH]; intros docs' E; [discriminate|].
    cbn [update_first] in E. destruct (user_id d =? key) eqn:Ek.
    + injection E as <-. cbn [find]. rewrite Hset.
      apply Z.eqb_eq in Ek. rewrite Ek.
      assert (Hf : (key =? other) = false) by (apply Z.eqb_neq; congruence).
      now rewrite Hf.
    + destruct (update_first key set rest) as [rest'|]; [|discriminate].
      injection E as <-. cbn [find]. now rewrite (IH _ eq_refl).
  - induction docs as [|d rest IH]; cbn [find app].
    + rewrite Hset. cbn [user_id].
      assert (Hf : (key =? other) = false) by (apply Z.eqb_neq; congruence).
      now rewrite Hf.
    + cbn [update_first] in E. destruct (user_id d =? key); [discriminate|].
      destruct (update_first key set rest); [discriminate|].
      destruct (user_id d =? other); [reflexivity|]. now apply IH.
Qed.

Lemma find_upsert_written (key : Z) (a : option string) (b : string)
    (c : option string) (joined : string) (docs : list UserDoc) :
  find (fun d => user_id d =? key)
       (upsert key (fun d => mk_UserDoc (user_id d) a b c 0 0 joined) docs) =
  Some (mk_UserDoc key a b c 0 0 joined).
Proof.
  destruct (find_upsert key (fun d => mk_UserDoc (user_id d) a b c 0 0 joined) docs
              (fun d => eq_refl)) as (d & Hd & H).
  rewrite H. now rewrite Hd.
Qed.

(** X8.  The entry command registers its user before the gate: whenever its
    write succeeds, a lookup of the user's id afterwards finds a document
    with the user's display fields, balance 0, no requests and the time of
    this call as join date, whether or not the user is a member and however
    the handler ends after the write. *)
Theorem start_registers_user (CONFIG : Config) (update : Update)
    (context : Context) (w : World) (user : User) :
  effective_user update = Some user ->
  write_fault (env w) (writes w) = false ->
  find (fun d => user_id d =? id user)
       (users (snd (start CONFIG update context w))) =
  Some (mk_UserDoc (id user) (username user) (first_name user) (last_name user)
                   0 0 (strftime (wall (env w) (tick w)))).
Proof.
  intros Hu Hw. destruct w as [e us rs ts tk dr wr nm tr].
  cbv beta iota delta [env writes tick] in *.
  unfold effective_user in Hu.
  destruct (message update) as [m|] eqn:Hm;
    [|destruct (callback_query update) as [q|] eqn:Hq; [|discriminate Hu]];
    inversion Hu; subst user; clear Hu;
    run; rewrite Hm; run; rewrite ?Hq; run; rewrite Hw;
    rewrite is_user_member_run; run;
    match goal with |- context [member ?c ?e ?u] => destruct (member c e u) end; run;
    try (destruct (join_buttons CONFIG); run);
    apply find_upsert_written.
Qed.

Lemma start_registers_user_witness :
  effective_user (Scenario.press "verify_membership") = Some Scenario.user555 /\
  write_fault (env (Scenario.fresh "left" Scenario.no_fault))
              (writes (Scenario.fresh "left" Scenario.no_fault)) = false /\
  find (fun d => user_id d =? 555)
       (users (snd (start Scenario.config (Scenario.press "verify_membership")
                      Scenario.no_args (Scenario.fresh "left" Scenario.no_fault)))) =
  Some (mk_UserDoc 555 (Some "u555") "Ada" None 0 0 "2024-01-01 10:00:00").
Proof.
  split; [reflexivity|]. split; [reflexivity|].
  exact (start_registers_user Scenario.config (Scenario.press "verify_membership")
           Scenario.no_args (Scenario.fresh "left" Scenario.no_fault)
           (user := Scenario.user555) eq_refl eq_refl).
Defined.

(** X9.  [add_user] leaves the documents of the other users alone: after it,
    whether its write succeeded or raised, a lookup of any other id finds
    what it found before. *)
Theorem add_user_keeps_other_users (user : User) (other : Z) (w : World) :
  other <> id user ->
  find (fun d => user_id d =? other) (users (snd (add_user user w))) =
  find (fun d => user_id d =? other) (users w).
Proof.
  intros Hne. destruct w as [e us rs ts tk dr wr nm tr]. run.
  destruct (write_fault e wr); run; [reflexivity|].
  now apply find_upsert_other.
Qed.

Lemma add_user_keeps_other_users_witness :
  777 <> id Scenario.user555 /\
  find (fun d => user_id d =? 777)
       (users (snd (add_user Scenario.user555 Scenario.crowd))) =
  Some (mk_UserDoc 777 None "Bob" None 0 0 "2024-01-01 09:10:00").
Proof.
  assert (H : 777 <> id Scenario.user555) by discriminate.
  split; [exact H|].
  exact (add_user_keeps_other_users Scenario.user555 Scenario.crowd H).
Defined.

(** ** Commands, one after the other *)

(** X10.  [/start] and then [/profile] from a member: both return normally;
    the first sends the feature menu, the second the profile summary, whose
    join date is the time of that [/start] and whose request count is the
    number of the user's stored requests. *)
Theorem profile_after_start (CONFIG : Config) (update : Update)
    (context : Context) (w : World) (m : Message) :
  message update = Some m ->
  write_fault (env w) (writes w) = false ->
  member CONFIG (env w) (id (from_user m)) = true ->
  let user := from_user m in
  yields (start CONFIG update context ;; profile CONFIG update context) w
    [menu_reply (chat_id m);
     profile_reply (chat_id m) user
       (length (filter (fun r => req_user_id r =? id user) (airtime_requests w)))
       (mk_UserDoc (id user) (username user) (first_name user) (last_name user)
                   0 0 (strftime (wall (env w) (tick w))))].
Proof.
  intros Hm Hw Hmem user. subst user.
  destruct w as [e us rs ts tk dr wr nm tr].
  cbv beta iota delta [env writes tick airtime_requests] in *.
  set (uid := id (from_user m)) in *.
  set (oracle := oracle_trace e uid (required_channels CONFIG)).
  unfold yields. run. rewrite Hm. run. rewrite Hw.
  rewrite is_user_member_run. run. fold uid. rewrite Hmem. run.
  rewrite is_user_member_run. run. fold uid. rewrite Hmem. run.
  unfold uid at 1. rewrite find_upsert_written. fold uid oracle.
  rewrite <- ?app_assoc.
  exists (EvUpdateOne users_collection uid :: oracle ++
          [menu_reply (chat_id m)] ++ oracle ++
          [EvFindOne users_collection uid;
           EvCountDocuments airtime_requests_collection (Some uid);
           profile_reply (chat_id m) (from_user m)
             (length (filter (fun r => req_user_id r =? uid) rs))
             (mk_UserDoc uid (username (from_user m)) (first_name (from_user m))
                         (last_name (from_user m)) 0 0 (strftime (wall e tk)))])%list.
  eexists. split; [reflexivity|]. split; [reflexivity|].
  unfold replies. cbn [filter is_reply]. rewrite !filter_app.
  change (filter is_reply oracle) with (replies oracle).
  unfold oracle. rewrite !replies_oracle_trace. reflexivity.
Qed.

Lemma profile_after_start_witness :
  message Scenario.command = Some (mk_Message 555 1 Scenario.user555) /\
  yields (start Scenario.config Scenario.command Scenario.no_args ;;
          profile Scenario.config Scenario.command Scenario.no_args)
         (Scenario.fresh "member" Scenario.no_fault)
    [menu_reply 555;
     profile_reply 555 Scenario.user555 0
       (mk_UserDoc 555 (Some "u555") "Ada" None 0 0 "2024-01-01 10:00:00")].
Proof.
  split; [reflexivity|].
  exact (profile_after_start Scenario.config Scenario.command Scenario.no_args
           (Scenario.fresh "member" Scenario.no_fault)
           (m := mk_Message 555 1 Scenario.user555) eq_refl eq_refl eq_refl).
Defined.

(** X11.  [/profile] from a member who has no stored document (one who never
    sent [/start]) reads the store and then raises [AttributeError]: the
    user gets no reply. *)
Theorem profile_without_record (CONFIG : Config) (update : Update)
    (context : Context) (w : World) (user : User) :
  effective_user update = Some user ->
  member CONFIG (env w) (id user) = true ->
  find (fun d => user_id d =? id user) (users w) = None ->
  exists w',
    profile CONFIG update context w = (Raise AttributeError, w') /\
    trace w' =
      (trace w ++ oracle_trace (env w) (id user) (required_channels CONFIG) ++
       [EvFindOne users_collection (id user);
        EvCountDocuments airtime_requests_collection (Some (id user))])%list.
Proof.
  intros Hu Hmem Hfind. destruct w as [e us rs ts tk dr wr nm tr].
  cbv beta iota delta [env users trace] in *.
  unfold effective_user in Hu.
  destruct (message update) as [m|] eqn:Hm;
    [|destruct (callback_query update) as [q|] eqn:Hq; [|discriminate Hu]];
    inversion Hu; subst user; clear Hu;
    run; rewrite Hm; run; rewrite ?Hq; run;
    rewrite is_user_member_run; run; rewrite Hmem; run; rewrite ?Hfind;
    rewrite <- ?app_assoc; eexists; split; reflexivity.
Qed.

Lemma profile_without_record_witness :
  effective_user Scenario.command = Some Scenario.user555 /\
  exists w',
    profile Scenario.config Scenario.command Scenario.no_args
            (Scenario.fresh "member" Scenario.no_fault) = (Raise AttributeError, w') /\
    trace w' = [EvGetChatMember "@alpha" 555;
                EvFindOne users_collection 555;
                EvCountDocuments airtime_requests_collection (Some 555)].
Proof.
  split; [reflexivity|].
  exact (profile_without_record Scenario.config Scenario.command Scenario.no_args
           (Scenario.fresh "member" Scenario.no_fault)
           (user := Scenario.user555) eq_refl eq_refl eq_refl).
Defined.

(** ** Broadcast without a message, and its log *)

(** X12.  [/broadcast] from the admin without an argument replies with the
    usage line and does nothing else: the users are not read and no
    delivery is attempted. *)
Theorem broadcast_without_message (CONFIG : Config) (update : Update)
    (context : Context) (w : World) (m : Message) :
  message update = Some m ->
  id (from_user m) = admin_id CONFIG ->
  args context = [] ->
  exists w',
    broadcast CONFIG update context w = (Ok tt, w') /\
    trace w' = (trace w ++ [EvReplyText (chat_id m) broadcast_usage None None])%list.
Proof.
  intros Hm Hadmin Hargs. apply Z.eqb_eq in Hadmin.
  destruct w as [e us rs ts tk dr wr nm tr].
  run. rewrite Hm. run. rewrite Hadmin. run. rewrite Hargs. run.
  eexists. split; reflexivity.
Qed.

Lemma broadcast_without_message_witness :
  message Scenario.admin_command = Some (mk_Message 1 2 Scenario.admin) /\
  1 = admin_id Scenario.config /\
  args Scenario.no_args = [] /\
  exists w',
    broadcast Scenario.config Scenario.admin_command Scenario.no_args
              Scenario.crowd = (Ok tt, w') /\
    trace w' = [EvReplyText 1 broadcast_usage None None].
Proof.
  split; [reflexivity|]. split; [reflexivity|]. split; [reflexivity|].
  exact (broadcast_without_message Scenario.config Scenario.admin_command
           Scenario.no_args Scenario.crowd
           (m := mk_Message 1 2 Scenario.admin) eq_refl eq_refl eq_refl).
Defined.

Lemma logs_broadcast_trace (e : Env) (text : string) (recipients : list UserDoc) :
  filter is_log (broadcast_trace e text recipients) =
  flat_map (fun user =>
              match send_error e (user_id user) with
              | Some msg =>
                  [EvLoggerError ("Failed to send to " ++ str (user_id user) ++
                                  ": " ++ msg)]
              | None => []
              end) recipients.
Proof.
  induction recipients as [|user rest IH]; [reflexivity|].
  cbn [broadcast_trace flat_map filter is_log].
  destruct (send_error e (user_id user)); cbn [filter is_log app]; now rewrite IH.
Qed.

Lemma log_lines_count (e : Env) (recipients : list UserDoc) :
  length (flat_map (fun user =>
                      match send_error e (user_id user) with
                      | Some msg =>
                          [EvLoggerError ("Failed to send to " ++ str (user_id user) ++
                                          ": " ++ msg)]
                      | None => []
                      end) recipients) =
  length (filter (fun user => negb (reachable e user)) recipients).
Proof.
  unfold reachable. induction recipients as [|u us IH]; [reflexivity|].
  cbn [flat_map filter]. destruct (send_error e (user_id u)); cbn [negb app length];
    now rewrite IH.
Qed.

(** X13.  A broadcast logs one error line per delivery that failed, naming
    the user and the reason, and none for a delivery that succeeded: with
    [M] unreachable users stored it logs [M] lines. *)
Theorem broadcast_logs_failures (CONFIG : Config) (update : Update)
    (context : Context) (w : World) (m : Message) :
  message update = Some m ->
  id (from_user m) = admin_id CONFIG ->
  args context <> [] ->
  exists (evs : list Event) (w' : World),
    broadcast CONFIG update context w = (Ok tt, w') /\
    trace w' = (trace w ++ evs)%list /\
    filter is_log evs =
      flat_map (fun user =>
                  match send_error (env w) (user_id user) with
                  | Some msg =>
                      [EvLoggerError ("Failed to send to " ++ str (user_id user) ++
                                      ": " ++ msg)]
                  | None => []
                  end) (users w) /\
    length (filter is_log evs) =
      length (filter (fun user => negb (reachable (env w) user)) (users w)).
Proof.
  intros Hm Hadmin Hargs. apply Z.eqb_eq in Hadmin.
  destruct w as [e us rs ts tk dr wr nm tr]. cbn [env users trace] in *.
  run. rewrite Hm. run. rewrite Hadmin. run.
  destruct (args context) as [|a rest]; [congruence|].
  set (text := String.concat " " (a :: rest)).
  rewrite broadcast_loop_run. run. rewrite <- ?app_assoc.
  eexists (EvFind users_collection :: broadcast_trace e text us ++ [_])%list.
  eexists. split; [reflexivity|]. split; [reflexivity|].
  assert (Hlog : forall last,
            is_log last = false ->
            filter is_log (EvFind users_collection :: broadcast_trace e text us ++ [last]) =
            filter is_log (broadcast_trace e text us)).
  { intros last Hlast. cbn [filter is_log]. rewrite filter_app. cbn [filter].
    rewrite Hlast. apply app_nil_r. }
  rewrite Hlog by reflexivity. rewrite logs_broadcast_trace. split; [reflexivity|].
  apply log_lines_count.
Qed.

Lemma broadcast_logs_failures_witness :
  message Scenario.admin_command = Some (mk_Message 1 2 Scenario.admin) /\
  1 = admin_id Scenario.config /\
  ["hi"] <> [] /\
  exists (evs : list Event) (w' : World),
    broadcast Scenario.config Scenario.admin_command (mk_Context ["hi"])
              Scenario.crowd = (Ok tt, w') /\
    trace w' = evs /\
    filter is_log evs =
      [EvLoggerError "Failed to send to 777: Forbidden: bot was blocked by the user"] /\
    length (filter is_log evs) = 1%nat.
Proof.
  assert (Hargs : ["hi"] <> []) by discriminate.
  split; [reflexivity|]. split; [reflexivity|]. split; [exact Hargs|].
  exact (broadcast_logs_failures Scenario.config Scenario.admin_command
           (mk_Context ["hi"]) Scenario.crowd
           (m := mk_Message 1 2 Scenario.admin) eq_refl eq_refl Hargs).
Defined.

(** ** The entry command on a button press *)

(** X14.  Called for a button press, as [verify_membership] calls it,
    [start] upserts the user and runs the oracle and then raises
    [AttributeError], member or not: a press carries no [update.message] to
    reply to, so neither the menu nor the prompt is sent. *)
Theorem start_on_button_press (CONFIG : Config) (update : Update)
    (context : Context) (w : World) (q : CallbackQuery)
    (buttons : InlineKeyboardMarkup) :
  message update = None ->
  callback_query update = Some q ->
  write_fault (env w) (writes w) = false ->
  join_buttons CONFIG = Ok buttons ->
  exists w',
    start CONFIG update context w = (Raise AttributeError, w') /\
    trace w' =
      (trace w ++ EvUpdateOne users_collection (id (cq_from_user q)) ::
       oracle_trace (env w) (id (cq_from_user q)) (required_channels CONFIG))%list.
Proof.
  intros Hm Hq Hw Hb. destruct w as [e us rs ts tk dr wr nm tr].
  cbv beta iota delta [env writes trace] in *.
  run. rewrite Hm. run. rewrite Hq. run. rewrite Hw.
  rewrite is_user_member_run. run.
  destruct (member CONFIG e (id (cq_from_user q))); run; rewrite ?Hb; run;
    rewrite <- ?app_assoc; eexists; split; reflexivity.
Qed.

Lemma start_on_button_press_witness :
  message (Scenario.press "verify_membership") = None /\
  join_buttons Scenario.config = Ok Scenario.join_alpha /\
  exists w',
    start Scenario.config (Scenario.press "verify_membership") Scenario.no_args
          (Scenario.fresh "left" Scenario.no_fault) = (Raise AttributeError, w') /\
    trace w' = [EvUpdateOne users_collection 555; EvGetChatMember "@alpha" 555].
Proof.
  split; [reflexivity|]. split; [reflexivity|].
  exact (start_on_button_press Scenario.config (Scenario.press "verify_membership")
           Scenario.no_args (Scenario.fresh "left" Scenario.no_fault)
           (q := mk_CallbackQuery Scenario.user555 "verify_membership"
                                  (mk_Message 555 7 Scenario.user555))
           (buttons := Scenario.join_alpha) eq_refl eq_refl eq_refl eq_refl).
Defined.

(** ** Verify, pressed again and again *)

(** X15.  [n] presses of Verify by a user who is not a member make [n] times
    the same calls, the oracle's and then the alert, and nothing else: no
    message is edited or sent and the store is not touched. *)
Theorem repeated_failed_verify (CONFIG : Config) (update : Update)
    (context : Context) (q : CallbackQuery) (n : nat) (w : World) :
  callback_query update = Some q ->
  member CONFIG (env w) (id (cq_from_user q)) = false ->
  presses CONFIG update context n w =
  advance
    (concat (repeat (oracle_trace (env w) (id (cq_from_user q))
                       (required_channels CONFIG) ++
                     [EvAnswer (Some not_joined_text) true])%list n)) w.
Proof.
  intros Hq. revert w. induction n as [|n IH]; intros w Hmem.
  - cbn [presses repeat concat]. now rewrite advance_nil.
  - cbn [presses repeat concat].
    rewrite (@verify_membership_failure CONFIG update context w q Hq Hmem).
    cbn [snd]. rewrite IH by exact Hmem. rewrite env_advance.
    now rewrite advance_advance.
Qed.

Lemma repeated_failed_verify_witness :
  callback_query (Scenario.press "verify_membership") =
    Some (mk_CallbackQuery Scenario.user555 "verify_membership"
                           (mk_Message 555 7 Scenario.user555)) /\
  presses Scenario.config (Scenario.press "verify_membership") Scenario.no_args 2
          (Scenario.registered "left" Scenario.no_fault) =
  advance [EvGetChatMember "@alpha" 555; EvAnswer (Some not_joined_text) true;
           EvGetChatMember "@alpha" 555; EvAnswer (Some not_joined_text) true]
          (Scenario.registered "left" Scenario.no_fault).
Proof.
  split; [reflexivity|].
  exact (@repeated_failed_verify Scenario.config (Scenario.press "verify_membership")
           Scenario.no_args _ 2 (Scenario.registered "left" Scenario.no_fault)
           eq_refl eq_refl).
Defined.

(** ** The buttons under a success summary *)

(** X16.  For each of the four networks, the Request Again button of the
    summary carries a payload that is handled by [handle_airtime_request]
    again, which reads that same network from it; the My Stats button
    carries a payload that no registered handler matches, so pressing it
    does nothing. *)
Theorem summary_buttons_lead (CONFIG : Config) (net : string) (update : Update)
    (context : Context) (q : CallbackQuery) :
  In net ["MTN"; "AIRTEL"; "GLO"; "9MOBILE"] ->
  callback_query update = Some q ->
  result_keyboard net =
    [ [mk_Button "🔄 Request Again" (callback_data ("airtime_" ++ net))];
      [mk_Button "📊 My Stats" (callback_data "my_stats")] ] /\
  (data q = "airtime_" ++ net ->
   on_callback_query CONFIG update context = handle_airtime_request update context /\
   index (split "_" (data q)) 1 = Ok net) /\
  (data q = "my_stats" ->
   forall w, on_callback_query CONFIG update context w = (Ok tt, w)).
Proof.
  intros Hnet Hq. split; [reflexivity|]. split.
  - intros Hd. unfold on_callback_query. rewrite Hq, Hd. cbn [In] in Hnet.
    destruct Hnet as [H|[H|[H|[H|[]]]]]; rewrite <- H; split; reflexivity.
  - intros Hd w. unfold on_callback_query. rewrite Hq, Hd. reflexivity.
Qed.

Lemma summary_buttons_lead_witness :
  In "GLO" ["MTN"; "AIRTEL"; "GLO"; "9MOBILE"] /\
  callback_query (Scenario.press "airtime_GLO") =
    Some (mk_CallbackQuery Scenario.user555 "airtime_GLO"
                           (mk_Message 555 7 Scenario.user555)) /\
  result_keyboard "GLO" =
    [ [mk_Button "🔄 Request Again" (callback_data "airtime_GLO")];
      [mk_Button "📊 My Stats" (callback_data "my_stats")] ] /\
  ("airtime_GLO" = "airtime_GLO" ->
   on_callback_query Scenario.config (Scenario.press "airtime_GLO") Scenario.no_args =
     handle_airtime_request (Scenario.press "airtime_GLO") Scenario.no_args /\
   index (split "_" "airtime_GLO") 1 = Ok "GLO") /\
  ("airtime_GLO" = "my_stats" ->
   forall w, on_callback_query Scenario.config (Scenario.press "airtime_GLO")
               Scenario.no_args w = (Ok tt, w)).
Proof.
  assert (Hin : In "GLO" ["MTN"; "AIRTEL"; "GLO"; "9MOBILE"])
    by (right; right; left; reflexivity).
  split; [exact Hin|]. split; [reflexivity|].
  exact (summary_buttons_lead Scenario.config (Scenario.press "airtime_GLO")
           Scenario.no_args Hin eq_refl).
Defined.

(** ** What a completed flow stores and shows *)

(** The store after a flow that returned normally. *)
Lemma completed_flow_store (update : Update) (context : Context) (w w' : World) :
  handle_airtime_request update context w = (Ok tt, w') ->
  exists (q : CallbackQuery) (net : string) (stamp stamp' : string),
    callback_query update = Some q /\
    index (split "_" (data q)) 1 = Ok net /\
    env w' = env w /\ users w' = users w /\
    airtime_requests w' =
      (airtime_requests w ++
       [mk_AirtimeRequestDoc (id (cq_from_user q)) net "DEMO_PHONE"
          ((10 + rand (env w) (draws w) mod (50 - 10 + 1)) * 10) "pending" stamp])%list /\
    transactions w' =
      (transactions w ++
       [mk_TransactionDoc (id (cq_from_user q)) "airtime"
          ((10 + rand (env w) (draws w) mod (50 - 10 + 1)) * 10) "completed" stamp'])%list /\
    trace w' =
      (trace w ++ progress_calls (chat_id (cq_message q)) (next_message_id w) ++
       [EvInsertOne airtime_requests_collection;
        EvInsertOne transactions_collection;
        EvDelete (chat_id (cq_message q)) (next_message_id w);
        summary_reply (chat_id (cq_message q)) net
          ((10 + rand (env w) (draws w) mod (50 - 10 + 1)) * 10)])%list.
Proof.
  intros H. destruct w as [e us rs ts tk dr wr nm tr].
  cbv beta iota delta [env users airtime_requests transactions trace draws
                       next_message_id] in *.
  revert H. unfold handle_airtime_request, show_processing_animation.
  rewrite first_frame. run.
  destruct (callback_query update) as [q|]; [|discriminate].
  destruct (index (split "_" (data q)) 1) as [net|] eqn:Hnet; [|discriminate].
  destruct (write_fault e wr); [discriminate|].
  destruct (write_fault e (S wr)); [discriminate|].
  intros H. apply (f_equal snd) in H. cbv beta iota delta [snd] in H. subst w'.
  cbv beta iota delta [env users airtime_requests transactions trace].
  rewrite <- ?app_assoc.
  exists q, net. eexists _, _.
  repeat match goal with |- _ /\ _ => split end; first [exact Hnet | reflexivity].
Qed.

(** X17.  After a flow that returned normally, the summary shown to the user
    agrees with the store: it names the network and the amount of the
    request just stored, the transaction has type 'airtime' and the same
    amount, the phone number is the placeholder, and the progress message
    was deleted right before the summary was sent. *)
Theorem summary_matches_records (update : Update) (context : Context) (w w' : World) :
  handle_airtime_request update context w = (Ok tt, w') ->
  exists (q : CallbackQuery) (r : AirtimeRequestDoc) (t : TransactionDoc)
         (before : list Event),
    callback_query update = Some q /\
    airtime_requests w' = (airtime_requests w ++ [r])%list /\
    transactions w' = (transactions w ++ [t])%list /\
    index (split "_" (data q)) 1 = Ok (network r) /\
    phone_number r = "DEMO_PHONE" /\
    tx_type t = "airtime" /\ tx_amount t = amount r /\
    trace w' =
      (trace w ++ before ++
       [EvDelete (chat_id (cq_message q)) (next_message_id w);
        summary_reply (chat_id (cq_message q)) (network r) (amount r)])%list.
Proof.
  intros H.
  destruct (@completed_flow_store update context w w' H)
    as (q & net & s1 & s2 & Hq & Hnet & _ & _ & Hr & Ht & Htr).
  exists q. eexists _, _.
  exists (progress_calls (chat_id (cq_message q)) (next_message_id w) ++
          [EvInsertOne airtime_requests_collection;
           EvInsertOne transactions_collection])%list.
  split; [exact Hq|]. split; [exact Hr|]. split; [exact Ht|].
  split; [exact Hnet|]. split; [reflexivity|]. split; [reflexivity|].
  split; [reflexivity|]. rewrite Htr, <- !app_assoc. reflexivity.
Qed.

Lemma summary_matches_records_witness :
  exists (q : CallbackQuery) (r : AirtimeRequestDoc) (t : TransactionDoc)
         (before : list Event),
    callback_query (Scenario.press "airtime_AIRTEL") = Some q /\
    airtime_requests
      (snd (handle_airtime_request (Scenario.press "airtime_AIRTEL") Scenario.no_args
              (Scenario.registered "member" Scenario.no_fault))) = [r] /\
    transactions
      (snd (handle_airtime_request (Scenario.press "airtime_AIRTEL") Scenario.no_args
              (Scenario.registered "member" Scenario.no_fault))) = [t] /\
    index (split "_" (data q)) 1 = Ok (network r) /\
    phone_number r = "DEMO_PHONE" /\
    tx_type t = "airtime" /\ tx_amount t = amount r /\
    trace
      (snd (handle_airtime_request (Scenario.press "airtime_AIRTEL") Scenario.no_args
              (Scenario.registered "member" Scenario.no_fault))) =
      (before ++
       [EvDelete (chat_id (cq_message q)) 100;
        summary_reply (chat_id (cq_message q)) (network r) (amount r)])%list.
Proof.
  assert (Hrun :
    handle_airtime_request (Scenario.press "airtime_AIRTEL") Scenario.no_args
      (Scenario.registered "member" Scenario.no_fault) =
    (Ok tt,
     snd (handle_airtime_request (Scenario.press "airtime_AIRTEL") Scenario.no_args
            (Scenario.registered "member" Scenario.no_fault))))
    by (vm_compute; reflexivity).
  exact (@summary_matches_records _ _ _ _ Hrun).
Defined.

(** X18.  A stored flow shows up in the admin's [/stats]: after a flow that
    returned normally, [/stats] from the admin reports the same number of
    users and one request more. *)
Theorem stats_after_flow (CONFIG : Config) (press command : Update)
    (context context' : Context) (w w1 : World) (m : Message) :
  handle_airtime_request press context w = (Ok tt, w1) ->
  message command = Some m ->
  id (from_user m) = admin_id CONFIG ->
  yields (stats CONFIG command context') w1
    [EvReplyText (chat_id m)
       (stats_text (length (users w)) (S (length (airtime_requests w))))
       None (Some "Markdown")].
Proof.
  intros H Hm Hadmin. apply Z.eqb_eq in Hadmin.
  destruct (@completed_flow_store press context w w1 H)
    as (q & net & s1 & s2 & _ & _ & _ & Hu & Hr & _ & _).
  destruct w1 as [e us rs ts tk dr wr nm tr].
  cbv beta iota delta [users airtime_requests] in Hu, Hr. subst us rs.
  unfold yields. run. rewrite Hm. run. rewrite Hadmin. run.
  rewrite length_app. cbn [length]. rewrite Nat.add_1_r.
  rewrite <- ?app_assoc.
  eexists _, _. split; [reflexivity|]. split; reflexivity.
Qed.

Lemma stats_after_flow_witness :
  message Scenario.admin_command = Some (mk_Message 1 2 Scenario.admin) /\
  1 = admin_id Scenario.config /\
  yields (stats Scenario.config Scenario.admin_command Scenario.no_args)
         (snd (handle_airtime_request (Scenario.press "airtime_MTN") Scenario.no_args
                 Scenario.crowd))
    [EvReplyText 1 (stats_text 3 1) None (Some "Markdown")].
Proof.
  assert (Hrun :
    handle_airtime_request (Scenario.press "airtime_MTN") Scenario.no_args
      Scenario.crowd =
    (Ok tt,
     snd (handle_airtime_request (Scenario.press "airtime_MTN") Scenario.no_args
            Scenario.crowd)))
    by (vm_compute; reflexivity).
  split; [reflexivity|]. split; [reflexivity|].
  exact (@stats_after_flow Scenario.config _ Scenario.admin_command _ Scenario.no_args
           _ _ (mk_Message 1 2 Scenario.admin) Hrun eq_refl eq_refl).
Defined.

(** X19.  A stored flow shows up in [/profile]: after a flow that returned
    normally, [/profile] from a registered member reports their number of
    requests, one more than before if they are the one who pressed, the
    same if they are someone else. *)
Theorem profile_after_flow (CONFIG : Config) (press command : Update)
    (context context' : Context) (w w1 : World) (q : CallbackQuery) (m : Message)
    (user_data : UserDoc) :
  handle_airtime_request press context w = (Ok tt, w1) ->
  callback_query press = Some q ->
  message command = Some m ->
  let user := from_user m in
  member CONFIG (env w) (id user) = true ->
  find (fun d => user_id d =? id user) (users w) = Some user_data ->
  yields (profile CONFIG command context') w1
    [profile_reply (chat_id m) user
       (length (filter (fun r => req_user_id r =? id user) (airtime_requests w)) +
        (if id (cq_from_user q) =? id user then 1 else 0))
       user_data].
Proof.
  intros H Hq Hm user Hmem Hfind. subst user.
  destruct (@completed_flow_store press context w w1 H)
    as (q' & net & s1 & s2 & Hq' & _ & He & Hu & Hr & _ & _).
  rewrite Hq in Hq'. injection Hq' as <-.
  destruct w as [e0 us0 rs0 ts0 tk0 dr0 wr0 nm0 tr0].
  destruct w1 as [e us rs ts tk dr wr nm tr].
  cbv beta iota delta [env users airtime_requests draws] in He, Hu, Hr, Hmem, Hfind |- *.
  subst e us rs.
  set (uid := id (from_user m)) in *.
  unfold yields. run. rewrite Hm. run.
  rewrite is_user_member_run. run. fold uid. rewrite Hmem. run. rewrite Hfind.
  rewrite filter_app, length_app. cbn [filter req_user_id].
  rewrite <- ?app_assoc.
  destruct (id (cq_from_user q) =? uid); cbn [length];
  eexists (oracle_trace e0 uid (required_channels CONFIG) ++
           [EvFindOne users_collection uid;
            EvCountDocuments airtime_requests_collection (Some uid);
            profile_reply (chat_id m) (from_user m)
              (length (filter (fun r => req_user_id r =? uid) rs0) +
               _) user_data])%list;
  (eexists; split; [reflexivity|]; split; [reflexivity|]);
  now rewrite replies_app, replies_oracle_trace.
Qed.

Lemma profile_after_flow_witness :
  callback_query (Scenario.press "airtime_MTN") =
    Some (mk_CallbackQuery Scenario.user555 "airtime_MTN"
                           (mk_Message 555 7 Scenario.user555)) /\
  message Scenario.command = Some (mk_Message 555 1 Scenario.user555) /\
  yields (profile Scenario.config Scenario.command Scenario.no_args)
         (snd (handle_airtime_request (Scenario.press "airtime_MTN") Scenario.no_args
                 (Scenario.registered "member" Scenario.no_fault)))
    [profile_reply 555 Scenario.user555 1 Scenario.doc555].
Proof.
  assert (Hrun :
    handle_airtime_request (Scenario.press "airtime_MTN") Scenario.no_args
      (Scenario.registered "member" Scenario.no_fault) =
    (Ok tt,
     snd (handle_airtime_request (Scenario.press "airtime_MTN") Scenario.no_args
            (Scenario.registered "member" Scenario.no_fault))))
    by (vm_compute; reflexivity).
  split; [reflexivity|]. split; [reflexivity|].
  exact (@profile_after_flow Scenario.config _ Scenario.command _ Scenario.no_args
           _ _ _ (mk_Message 555 1 Scenario.user555) Scenario.doc555
           Hrun eq_refl eq_refl eq_refl eq_refl).
Defined.

(** ** Payloads and links out of range *)

Lemma index_split_no_separator (sep : ascii) (s : string) :
  occurrences sep s = 0%nat -> index (split sep s) 1 = Raise IndexError.
Proof.
  intros H. unfold index.
  assert (Hn : nth_error (split sep s) 1 = None).
  { apply nth_error_None. rewrite split_length, H. constructor. }
  now rewrite Hn.
Qed.

(** X20.  On a payload without an underscore, [handle_airtime_request] shows
    the whole progress animation and then raises [IndexError]: nothing is
    written, the progress message is not deleted and no summary is sent. *)
Theorem flow_without_network (update : Update) (context : Context) (w : World)
    (q : CallbackQuery) :
  callback_query update = Some q ->
  occurrences "_" (data q) = 0%nat ->
  exists w',
    handle_airtime_request update context w = (Raise IndexError, w') /\
    trace w' =
      (trace w ++ progress_calls (chat_id (cq_message q)) (next_message_id w))%list /\
    same_store w w'.
Proof.
  intros Hq Hdata. pose proof (index_split_no_separator "_" _ Hdata) as Hidx.
  destruct w as [e us rs ts tk dr wr nm tr].
  cbv beta iota delta [trace next_message_id] in *.
  unfold handle_airtime_request, show_processing_animation.
  rewrite first_frame. run. rewrite Hq. run. rewrite Hidx.
  rewrite <- ?app_assoc.
  eexists. split; [reflexivity|]. split; [reflexivity|]. now repeat split.
Qed.

Lemma flow_without_network_witness :
  callback_query (Scenario.press "airtime") =
    Some (mk_CallbackQuery Scenario.user555 "airtime"
                           (mk_Message 555 7 Scenario.user555)) /\
  occurrences "_" "airtime" = 0%nat /\
  exists w',
    handle_airtime_request (Scenario.press "airtime") Scenario.no_args
      (Scenario.registered "member" Scenario.no_fault) = (Raise IndexError, w') /\
    trace w' = progress_calls 555 100 /\
    same_store (Scenario.registered "member" Scenario.no_fault) w'.
Proof.
  split; [reflexivity|]. split; [reflexivity|].
  exact (@flow_without_network (Scenario.press "airtime") Scenario.no_args
           (Scenario.registered "member" Scenario.no_fault) _ eq_refl eq_refl).
Defined.

Lemma comprehension_raises {A} (f : nat -> result A) (indices : list nat) (i : nat) :
  In i indices ->
  f i = Raise IndexError ->
  (forall j e, f j = Raise e -> e = IndexError) ->
  comprehension f indices = Raise IndexError.
Proof.
  intros Hin Hi Honly. induction indices as [|j rest IH]; [destruct Hin|].
  cbn [comprehension]. destruct (f j) as [x|e] eqn:Ej.
  - destruct Hin as [->|Hin]; [congruence|]. now rewrite (IH Hin).
  - now rewrite (Honly _ _ Ej).
Qed.

(** X21.  With fewer links than required channels the prompt cannot be
    built: [ask_user_to_join] raises [IndexError] before it sends anything,
    whatever the update. *)
Theorem too_few_links (CONFIG : Config) (update : Update) (w : World) :
  (length (channel_links CONFIG) < length (required_channels CONFIG))%nat ->
  join_buttons CONFIG = Raise IndexError /\
  ask_user_to_join CONFIG update w = (Raise IndexError, w).
Proof.
  intros Hlt.
  assert (Hb : join_buttons CONFIG = Raise IndexError).
  { unfold join_buttons.
    rewrite (@comprehension_raises _ _ _ (length (channel_links CONFIG))); [reflexivity| | |].
    - apply in_seq. lia.
    - unfold index.
      destruct (nth_error (required_channels CONFIG) (length (channel_links CONFIG)))
        as [c|] eqn:Ec.
      + assert (Hn : nth_error (channel_links CONFIG) (length (channel_links CONFIG)) = None)
          by (apply nth_error_None; lia).
        now rewrite Hn.
      + reflexivity.
    - intros j e. unfold index.
      destruct (nth_error (required_channels CONFIG) j); [|intros [= <-]; reflexivity].
      destruct (nth_error (channel_links CONFIG) j); [discriminate|].
      intros [= <-]; reflexivity. }
  split; [exact Hb|].
  unfold ask_user_to_join, bind, lift. now rewrite Hb.
Qed.

Lemma too_few_links_witness :
  (length (channel_links (mk_Config "t" 1 ["alpha"; "beta"] ["https://t.me/alpha"])) <
   length (required_channels (mk_Config "t" 1 ["alpha"; "beta"] ["https://t.me/alpha"])))%nat /\
  join_buttons (mk_Config "t" 1 ["alpha"; "beta"] ["https://t.me/alpha"]) =
    Raise IndexError /\
  ask_user_to_join (mk_Config "t" 1 ["alpha"; "beta"] ["https://t.me/alpha"])
    Scenario.command (Scenario.fresh "left" Scenario.no_fault) =
    (Raise IndexError, Scenario.fresh "left" Scenario.no_fault).
Proof.
  assert (H : (length (channel_links (mk_Config "t" 1 ["alpha"; "beta"] ["https://t.me/alpha"])) <
               length (required_channels (mk_Config "t" 1 ["alpha"; "beta"] ["https://t.me/alpha"])))%nat)
    by (cbv; constructor).
  split; [exact H|].
  exact (too_few_links (mk_Config "t" 1 ["alpha"; "beta"] ["https://t.me/alpha"])
           Scenario.command (Scenario.fresh "left" Scenario.no_fault) H).
Defined.

(** ** The progress message *)


